(** * Unraid MCP gateway: a shallow embedding of the two front ends

    The repository holds two Python programs that answer the same four
    read-only operations by sending one GraphQL query to an Unraid server:

    - [unraid-mcp-server-http.py]   (FastAPI routes)      : module [Http]
    - [unraid-mcp-server-simple.py] (MCP tool dispatcher)  : module [Simple]

    Python values that travel through the code are JSON values; Python
    exceptions are values of [exn]; a function that may raise returns a
    [result].  The network is an argument: [post] maps the JSON payload the
    executor sends to what [client.post] does with it. *)

From Stdlib Require Import ZArith List String Ascii Bool Lia DecimalString.
Import ListNotations.

Local Open Scope string_scope.
Local Open Scope Z_scope.

(** ** Exceptions and results *)

(** The exception classes the two programs can meet.  All of them derive
    from Python's [Exception], so every [except Exception] clause of the
    source catches every value of this type. *)
Inductive exn : Type :=
| Exception (msg : string)
| AttributeError (type_name attr : string)
| TypeError (msg : string)
| ValueError (msg : string)
| KeyError (key : string)
| OverflowError (msg : string)
| ZeroDivisionError (msg : string)
| HTTPException (status_code : Z) (detail : string)
| HTTPStatusError (status_code : Z) (msg : string)
| RequestError (msg : string)
| JSONDecodeError (msg : string).

Inductive result (A : Type) : Type :=
| Ok (a : A)
| Raise (e : exn).

Arguments Ok {A} a.
Arguments Raise {A} e.

Definition bind {A B : Type} (c : result A) (k : A -> result B) : result B :=
  match c with
  | Ok a => k a
  | Raise e => Raise e
  end.

(** [try: body except Exception as e: handler e]. *)
Definition catch {A : Type} (body : result A) (handler : exn -> result A)
  : result A :=
  match body with
  | Ok a => Ok a
  | Raise e => handler e
  end.

Notation "x <- c ;; k" := (bind c (fun x => k))
  (at level 61, c at next level, right associativity).

Fixpoint mapM {A B : Type} (f : A -> result B) (l : list A)
  : result (list B) :=
  match l with
  | [] => Ok []
  | a :: l' => b <- f a ;; bs <- mapM f l' ;; Ok (b :: bs)
  end.

(** ** Python numbers and strings *)

(** [str(n)] for an [int]. *)
Definition str_int (n : Z) : string := NilZero.string_of_int (Z.to_int n).

(** A Python [float]: the finite value [m * 2^e], an infinity, or a NaN. *)
Inductive pyfloat : Type :=
| Finite (m e : Z)
| Infinity (negative : bool)
| NaN.

(** Quotient of [n] by [d] rounded to the nearest integer, ties to the even
    one ([0 <= n], [0 < d]). *)
Definition round_half_even (n d : Z) : Z :=
  let q := n / d in
  let r := n mod d in
  if 2 * r <? d then q
  else if d <? 2 * r then q + 1
  else if Z.even q then q else q + 1.

(** [floor (log2 (a / b))] for positive [a] and [b]. *)
Definition quotient_log2 (a b : Z) : Z :=
  let l := Z.log2 a - Z.log2 b in
  if 0 <=? l
  then (if b * 2 ^ l <=? a then l else l - 1)
  else (if b <=? a * 2 ^ (- l) then l else l - 1).

(** [a / b] on positive [int]s: the double nearest to the exact quotient
    (53 significant bits, exponent not below -1074), [OverflowError] when
    that is not finite. *)
Definition truediv_pos (a b : Z) : result pyfloat :=
  let x := Z.max (quotient_log2 a b - 52) (-1074) in
  let m := if 0 <=? x then round_half_even a (b * 2 ^ x)
           else round_half_even (a * 2 ^ (- x)) b in
  if (0 <=? x) && (2 ^ 1024 <=? m * 2 ^ x)
  then Raise (OverflowError "integer division result too large for a float")
  else Ok (Finite m x).

(** Python's [a / b] on two [int]s. *)
Definition py_truediv (a b : Z) : result pyfloat :=
  if b =? 0 then Raise (ZeroDivisionError "division by zero")
  else if a =? 0 then Ok (Finite 0 0)
  else
    f <- truediv_pos (Z.abs a) (Z.abs b) ;;
    match f with
    | Finite m x => Ok (Finite (Z.sgn a * Z.sgn b * m) x)
    | _ => Ok f
    end.

Definition two_digits (n : Z) : string :=
  if n <? 10 then "0" ++ str_int n else str_int n.

(** The digits of [r] hundredths: integer part, a point, two decimals. *)
Definition hundredths (r : Z) : string :=
  str_int (r / 100) ++ "." ++ two_digits (r mod 100).

(** [f"{x:.2f}"]: the exact value of the double, rounded to two decimals
    with ties to even. *)
Definition format_2f (x : pyfloat) : string :=
  match x with
  | Finite m e =>
      let a := Z.abs m in
      let r := if 0 <=? e then a * 2 ^ e * 100
               else round_half_even (a * 100) (2 ^ (- e)) in
      (if m <? 0 then "-" else "") ++ hundredths r
  | Infinity negative => if negative then "-inf" else "inf"
  | NaN => "nan"
  end.

(** [int(x)] for a [float]: truncation toward zero. *)
Definition int_of_float (x : pyfloat) : result Z :=
  match x with
  | Finite m e => Ok (if 0 <=? e then m * 2 ^ e else Z.quot m (2 ^ (- e)))
  | Infinity _ => Raise (OverflowError "cannot convert float infinity to integer")
  | NaN => Raise (ValueError "cannot convert float NaN to integer")
  end.

(** ** JSON values, as [response.json()] builds them *)

#[warnings="-register-all"]
Inductive json : Type :=
| JNull
| JBool (b : bool)
| JInt (n : Z)
| JFloat (x : pyfloat)
| JStr (s : string)
| JList (items : list json)
| JDict (fields : list (string * json)).

Definition type_name (v : json) : string :=
  match v with
  | JNull => "NoneType"
  | JBool _ => "bool"
  | JInt _ => "int"
  | JFloat _ => "float"
  | JStr _ => "str"
  | JList _ => "list"
  | JDict _ => "dict"
  end.

(** Truth value of a value in [if v:] and [if not v:]. *)
Definition truthy (v : json) : bool :=
  match v with
  | JNull => false
  | JBool b => b
  | JInt n => negb (n =? 0)
  | JFloat (Finite m _) => negb (m =? 0)
  | JFloat _ => true
  | JStr s => negb (String.eqb s "")
  | JList items => match items with [] => false | _ => true end
  | JDict fields => match fields with [] => false | _ => true end
  end.

Fixpoint assoc (key : string) (fields : list (string * json)) : option json :=
  match fields with
  | [] => None
  | (k, v) :: rest => if String.eqb k key then Some v else assoc key rest
  end.

(** [d[key] = v] on a dict: overwrite in place, or append a new key. *)
Fixpoint dict_set (fields : list (string * json)) (key : string) (v : json)
  : list (string * json) :=
  match fields with
  | [] => [(key, v)]
  | (k, old) :: rest =>
      if String.eqb k key then (k, v) :: rest
      else (k, old) :: dict_set rest key v
  end.

(** [v.get(key, default)]; only a dict has the method. *)
Definition py_get (v : json) (key : string) (default : json) : result json :=
  match v with
  | JDict fields =>
      Ok (match assoc key fields with Some x => x | None => default end)
  | _ => Raise (AttributeError (type_name v) "get")
  end.

(** [v[key]] with a [str] key. *)
Definition py_getitem (v : json) (key : string) : result json :=
  match v with
  | JDict fields =>
      match assoc key fields with
      | Some x => Ok x
      | None => Raise (KeyError key)
      end
  | JList _ => Raise (TypeError "list indices must be integers or slices, not str")
  | JStr _ => Raise (TypeError "string indices must be integers, not 'str'")
  | _ => Raise (TypeError ("'" ++ type_name v ++ "' object is not subscriptable"))
  end.

(** [v == s] where [s] is a [str] literal. *)
Definition py_eq_str (v : json) (s : string) : bool :=
  match v with
  | JStr t => String.eqb t s
  | _ => false
  end.

Fixpoint is_substring (needle hay : string) : bool :=
  prefix needle hay ||
  match hay with
  | EmptyString => false
  | String _ rest => is_substring needle rest
  end.

(** [key in v] with a [str] key. *)
Definition py_contains (v : json) (key : string) : result bool :=
  match v with
  | JDict fields => Ok (match assoc key fields with Some _ => true | None => false end)
  | JList items => Ok (existsb (fun x => py_eq_str x key) items)
  | JStr s => Ok (is_substring key s)
  | _ => Raise (TypeError ("argument of type '" ++ type_name v ++ "' is not iterable"))
  end.

(** [len(v)]. *)
Definition py_len (v : json) : result Z :=
  match v with
  | JList items => Ok (Z.of_nat (List.length items))
  | JDict fields => Ok (Z.of_nat (List.length fields))
  | JStr s => Ok (Z.of_nat (String.length s))
  | _ => Raise (TypeError ("object of type '" ++ type_name v ++ "' has no len()"))
  end.

Fixpoint chars (s : string) : list json :=
  match s with
  | EmptyString => []
  | String c rest => JStr (String c EmptyString) :: chars rest
  end.

(** The items [for x in v] visits. *)
Definition py_iter (v : json) : result (list json) :=
  match v with
  | JList items => Ok items
  | JDict fields => Ok (map (fun kv => JStr (fst kv)) fields)
  | JStr s => Ok (chars s)
  | _ => Raise (TypeError ("'" ++ type_name v ++ "' object is not iterable"))
  end.

(** [sep.join(items)]: every item has to be a [str]. *)
Fixpoint join_from (i : Z) (sep : string) (items : list json) : result string :=
  match items with
  | [] => Ok ""
  | v :: rest =>
      match v with
      | JStr s =>
          match rest with
          | [] => Ok s
          | _ => tail <- join_from (i + 1) sep rest ;; Ok (s ++ sep ++ tail)
          end
      | _ => Raise (TypeError ("sequence item " ++ str_int i
                               ++ ": expected str instance, "
                               ++ type_name v ++ " found"))
      end
  end.

Definition str_join (sep : string) (items : list json) : result string :=
  join_from 0 sep items.

Fixpoint filterM {A : Type} (p : A -> result bool) (l : list A)
  : result (list A) :=
  match l with
  | [] => Ok []
  | a :: l' =>
      keep <- p a ;; rest <- filterM p l' ;;
      Ok (if keep then a :: rest else rest)
  end.

(** ** What the programs take from their libraries

    Four library behaviours are arguments of the model: [repr] of a float
    or a container, [int] of a [str], [json.dumps(_, indent=2)] and the
    clock read by [datetime.utcnow().isoformat()]. *)
Record runtime : Type := {
  repr : json -> string;
  int_of_str : string -> result Z;
  dumps : json -> string;
  utcnow : string
}.

(** [str(v)], which is also what an f-string field [{v}] prints. *)
Definition py_str (rt : runtime) (v : json) : string :=
  match v with
  | JNull => "None"
  | JBool b => if b then "True" else "False"
  | JInt n => str_int n
  | JStr s => s
  | _ => repr rt v
  end.

(** [int(v)]. *)
Definition py_int (rt : runtime) (v : json) : result Z :=
  match v with
  | JInt n => Ok n
  | JBool b => Ok (if b then 1 else 0)
  | JFloat x => int_of_float x
  | JStr s => int_of_str rt s
  | _ => Raise (TypeError
           ("int() argument must be a string, a bytes-like object or a real number, not '"
            ++ type_name v ++ "'"))
  end.

(** [str(e)] for an exception.  The built-in errors print as CPython words
    them; an [HTTPException] prints as Starlette does, status and detail;
    the [httpx] and [json] errors carry the text their library gave them. *)
Definition str_exn (e : exn) : string :=
  match e with
  | Exception msg => msg
  | AttributeError t a => "'" ++ t ++ "' object has no attribute '" ++ a ++ "'"
  | TypeError msg => msg
  | ValueError msg => msg
  | KeyError key => "'" ++ key ++ "'"
  | OverflowError msg => msg
  | ZeroDivisionError msg => msg
  | HTTPException status_code detail => str_int status_code ++ ": " ++ detail
  | HTTPStatusError _ msg => msg
  | RequestError msg => msg
  | JSONDecodeError msg => msg
  end.

(** ** The upstream server, seen through [httpx] *)

(** An [httpx.Response]: its status, the message [raise_for_status] puts in
    its [HTTPStatusError], and what [response.json()] does. *)
Record response : Type := {
  status_code : Z;
  status_message : string;
  body : result json
}.

(** What [await client.post(...)] does. *)
Inductive reply : Type :=
| PostRaises (e : exn)
| PostReturns (r : response).

(** [raise_for_status] lets the statuses 200 to 299 pass and raises on any
    other one. *)
Definition is_success (r : response) : bool :=
  (200 <=? status_code r) && (status_code r <=? 299).

Definition raise_for_status (r : response) : result unit :=
  if is_success r then Ok tt
  else Raise (HTTPStatusError (status_code r) (status_message r)).

(** ** [unraid-mcp-server-http.py] *)

Module Http.

Definition query_health_check : string := "
        query HealthCheck {
          info {
            machineId
            time
          }
        }
        ".

Definition query_system_info : string := "
    query GetSystemInfo {
      info {
        os { platform distro release hostname uptime }
        cpu { manufacturer brand cores threads }
        time
        machineId
        versions { unraid }
      }
    }
    ".

Definition query_array_status : string := "
    query GetArrayStatus {
      array {
        state
        capacity {
          kilobytes { free used total }
        }
        disks { id name status }
        parities { id name status }
      }
    }
    ".

Definition query_docker_containers : string := "
    query ListDockerContainers {
      docker {
        containers(skipCache: false) {
          id
          names
          image
          state
          status
          ports { privatePort publicPort type }
        }
      }
    }
    ".

(** What a route function hands to FastAPI: a plain value, sent with
    status 200, or an explicit [JSONResponse]. *)
Inductive route_result : Type :=
| Body (content : json)
| JSONResponse (status_code : Z) (content : json).

Section Routes.

Variable rt : runtime.
Variable post : json -> reply.

Definition make_graphql_request (query : string) (variables : json)
  : result json :=
  let payload :=
    JDict (("query", JStr query)
           :: if truthy variables then [("variables", variables)] else []) in
  match post payload with
  | PostRaises e => Raise e
  | PostReturns response =>
      _ <- raise_for_status response ;;
      response_data <- body response ;;
      present <- py_contains response_data "errors" ;;
      failed <- (if present
                 then errors <- py_getitem response_data "errors" ;;
                      Ok (truthy errors)
                 else Ok false) ;;
      if failed then
        errors <- py_getitem response_data "errors" ;;
        items <- py_iter errors ;;
        messages <- mapM (fun err => py_get err "message" (JStr (py_str rt err)))
                         items ;;
        error_details <- str_join "; " messages ;;
        Raise (Exception ("GraphQL API error: " ++ error_details))
      else py_get response_data "data" (JDict [])
  end.

Definition health_check : result route_result :=
  catch
    (response_data <- make_graphql_request query_health_check JNull ;;
     info <- py_get response_data "info" (JDict []) ;;
     machine_id <- py_get info "machineId" JNull ;;
     info <- py_get response_data "info" (JDict []) ;;
     time <- py_get info "time" JNull ;;
     Ok (Body (JDict [
       ("status", JStr "healthy");
       ("timestamp", JStr (utcnow rt));
       ("server", JStr "Unraid MCP Server HTTP");
       ("version", JStr "1.0.0");
       ("api_connection", JStr "ok");
       ("unraid_system", JDict [("machine_id", machine_id); ("time", time)])
     ])))
    (fun e =>
       Ok (JSONResponse 503 (JDict [
         ("status", JStr "unhealthy");
         ("timestamp", JStr (utcnow rt));
         ("error", JStr (str_exn e))
       ]))).

Definition get_system_info : result json :=
  catch
    (response_data <- make_graphql_request query_system_info JNull ;;
     raw_info <- py_get response_data "info" (JDict []) ;;
     if negb (truthy raw_info)
     then Raise (HTTPException 404 "No system info returned from Unraid API")
     else
       let summary := [] in
       os <- py_get raw_info "os" JNull ;;
       summary <-
         (if truthy os then
            os_info <- py_getitem raw_info "os" ;;
            distro <- py_get os_info "distro" (JStr "") ;;
            release <- py_get os_info "release" (JStr "") ;;
            platform <- py_get os_info "platform" (JStr "") ;;
            let summary :=
              dict_set summary "os"
                (JStr (py_str rt distro ++ " " ++ py_str rt release
                       ++ " (" ++ py_str rt platform ++ ")")) in
            hostname <- py_get os_info "hostname" JNull ;;
            let summary := dict_set summary "hostname" hostname in
            uptime <- py_get os_info "uptime" JNull ;;
            Ok (dict_set summary "uptime" uptime)
          else Ok summary) ;;
       cpu <- py_get raw_info "cpu" JNull ;;
       summary <-
         (if truthy cpu then
            cpu_info <- py_getitem raw_info "cpu" ;;
            manufacturer <- py_get cpu_info "manufacturer" (JStr "") ;;
            brand <- py_get cpu_info "brand" (JStr "") ;;
            cores <- py_get cpu_info "cores" JNull ;;
            threads <- py_get cpu_info "threads" JNull ;;
            Ok (dict_set summary "cpu"
                  (JStr (py_str rt manufacturer ++ " " ++ py_str rt brand
                         ++ " (" ++ py_str rt cores ++ " cores, "
                         ++ py_str rt threads ++ " threads)")))
          else Ok summary) ;;
       versions <- py_get raw_info "versions" JNull ;;
       summary <-
         (if truthy versions then
            versions <- py_getitem raw_info "versions" ;;
            unraid <- py_get versions "unraid" JNull ;;
            Ok (dict_set summary "unraid_version" unraid)
          else Ok summary) ;;
       Ok (JDict [("summary", JDict summary); ("details", raw_info)]))
    (fun e =>
       Raise (HTTPException 500
                ("Failed to retrieve system information: " ++ str_exn e))).

(** The local function [format_kb] of [get_array_status]. *)
Definition format_kb (k : json) : result string :=
  match k with
  | JNull => Ok "N/A"
  | _ =>
      k <- py_int rt k ;;
      if 1024 * 1024 * 1024 <=? k then
        q <- py_truediv k (1024 * 1024 * 1024) ;; Ok (format_2f q ++ " TB")
      else if 1024 * 1024 <=? k then
        q <- py_truediv k (1024 * 1024) ;; Ok (format_2f q ++ " GB")
      else if 1024 <=? k then
        q <- py_truediv k 1024 ;; Ok (format_2f q ++ " MB")
      else Ok (str_int k ++ " KB")
  end.

Definition get_array_status : result json :=
  catch
    (response_data <- make_graphql_request query_array_status JNull ;;
     raw_array_info <- py_get response_data "array" (JDict []) ;;
     if negb (truthy raw_array_info)
     then Raise (HTTPException 404 "No array information returned from Unraid API")
     else
       state <- py_get raw_array_info "state" JNull ;;
       disks <- py_get raw_array_info "disks" (JList []) ;;
       num_data_disks <- py_len disks ;;
       parities <- py_get raw_array_info "parities" (JList []) ;;
       num_parity_disks <- py_len parities ;;
       let summary := [
         ("state", state);
         ("num_data_disks", JInt num_data_disks);
         ("num_parity_disks", JInt num_parity_disks)
       ] in
       capacity <- py_get raw_array_info "capacity" JNull ;;
       available <-
         (if truthy capacity then
            capacity <- py_getitem raw_array_info "capacity" ;;
            kilobytes <- py_get capacity "kilobytes" JNull ;;
            Ok (truthy kilobytes)
          else Ok false) ;;
       summary <-
         (if available then
            capacity <- py_getitem raw_array_info "capacity" ;;
            kb_cap <- py_getitem capacity "kilobytes" ;;
            total <- py_get kb_cap "total" JNull ;;
            total <- format_kb total ;;
            used <- py_get kb_cap "used" JNull ;;
            used <- format_kb used ;;
            free <- py_get kb_cap "free" JNull ;;
            free <- format_kb free ;;
            Ok (dict_set summary "capacity"
                  (JDict [("total", JStr total); ("used", JStr used);
                          ("free", JStr free)]))
          else Ok summary) ;;
       Ok (JDict [("summary", JDict summary); ("details", raw_array_info)]))
    (fun e =>
       Raise (HTTPException 500
                ("Failed to retrieve array status: " ++ str_exn e))).

(** [len([c for c in containers if c.get("state") == wanted])]. *)
Definition count_state (containers : list json) (wanted : string) : result Z :=
  kept <- filterM (fun c => state <- py_get c "state" JNull ;;
                            Ok (py_eq_str state wanted))
                  containers ;;
  Ok (Z.of_nat (List.length kept)).

Definition list_docker_containers : result json :=
  catch
    (response_data <- make_graphql_request query_docker_containers JNull ;;
     docker <- py_get response_data "docker" JNull ;;
     if truthy docker then
       docker <- py_getitem response_data "docker" ;;
       containers <- py_get docker "containers" (JList []) ;;
       items <- py_iter containers ;;
       running <- count_state items "running" ;;
       stopped <- count_state items "exited" ;;
       total <- py_len containers ;;
       Ok (JDict [
         ("summary", JDict [("total", JInt total);
                            ("running", JInt running);
                            ("stopped", JInt stopped)]);
         ("containers", containers)
       ])
     else
       Ok (JDict [
         ("summary", JDict [("total", JInt 0); ("running", JInt 0);
                            ("stopped", JInt 0)]);
         ("containers", JList [])
       ]))
    (fun e =>
       Raise (HTTPException 500
                ("Failed to list Docker containers: " ++ str_exn e))).

End Routes.

(** [GET /tools]: the catalog of the tools, as a JSON object. *)
Definition list_tools : json :=
  JDict [("tools", JList [
    JDict [("name", JStr "get_system_info");
           ("description",
            JStr "Get comprehensive Unraid system information including OS, CPU, and memory details")];
    JDict [("name", JStr "get_array_status");
           ("description",
            JStr "Get current status of the Unraid storage array including capacity and disk health")];
    JDict [("name", JStr "list_docker_containers");
           ("description",
            JStr "List all Docker containers running on the Unraid system")];
    JDict [("name", JStr "health_check");
           ("description",
            JStr "Check the health status of the Unraid MCP server and system")]
  ])].

End Http.

(** ** [unraid-mcp-server-simple.py] *)

Module Simple.

Definition query_system_info : string := "
    query GetSystemInfo {
      info {
        os { platform distro release hostname uptime }
        cpu { manufacturer brand cores threads }
        time
        machineId
      }
    }
    ".

Definition query_array_status : string := "
    query GetArrayStatus {
      array {
        state
        capacity {
          kilobytes { free used total }
        }
        disks { id name status }
        parities { id name status }
      }
    }
    ".

Definition query_docker_containers : string := "
    query ListDockerContainers {
      docker {
        containers(skipCache: false) {
          id
          names
          image
          state
          status
        }
      }
    }
    ".

Definition query_health_check : string := "
        query HealthCheck {
          info {
            machineId
            time
          }
        }
        ".

(** [mcp.types.TextContent]. *)
Record TextContent : Type := {
  type : string;
  text : string
}.

Section Tools.

Variable rt : runtime.
Variable post : json -> reply.

Definition make_graphql_request (query : string) (variables : json)
  : result json :=
  let payload :=
    JDict (("query", JStr query)
           :: if truthy variables then [("variables", variables)] else []) in
  match post payload with
  | PostRaises e => Raise e
  | PostReturns response =>
      _ <- raise_for_status response ;;
      response_data <- body response ;;
      present <- py_contains response_data "errors" ;;
      failed <- (if present
                 then errors <- py_getitem response_data "errors" ;;
                      Ok (truthy errors)
                 else Ok false) ;;
      if failed then
        errors <- py_getitem response_data "errors" ;;
        items <- py_iter errors ;;
        messages <- mapM (fun err => py_get err "message" (JStr (py_str rt err)))
                         items ;;
        error_details <- str_join "; " messages ;;
        Raise (Exception ("GraphQL API error: " ++ error_details))
      else py_get response_data "data" (JDict [])
  end.

Definition get_system_info : result json :=
  catch
    (response_data <- make_graphql_request query_system_info JNull ;;
     raw_info <- py_get response_data "info" (JDict []) ;;
     if negb (truthy raw_info)
     then Raise (Exception "No system info returned from Unraid API")
     else
       let summary := [] in
       os <- py_get raw_info "os" JNull ;;
       summary <-
         (if truthy os then
            os_info <- py_getitem raw_info "os" ;;
            distro <- py_get os_info "distro" (JStr "") ;;
            release <- py_get os_info "release" (JStr "") ;;
            platform <- py_get os_info "platform" (JStr "") ;;
            let summary :=
              dict_set summary "os"
                (JStr (py_str rt distro ++ " " ++ py_str rt release
                       ++ " (" ++ py_str rt platform ++ ")")) in
            hostname <- py_get os_info "hostname" JNull ;;
            let summary := dict_set summary "hostname" hostname in
            uptime <- py_get os_info "uptime" JNull ;;
            Ok (dict_set summary "uptime" uptime)
          else Ok summary) ;;
       cpu <- py_get raw_info "cpu" JNull ;;
       summary <-
         (if truthy cpu then
            cpu_info <- py_getitem raw_info "cpu" ;;
            manufacturer <- py_get cpu_info "manufacturer" (JStr "") ;;
            brand <- py_get cpu_info "brand" (JStr "") ;;
            cores <- py_get cpu_info "cores" JNull ;;
            threads <- py_get cpu_info "threads" JNull ;;
            Ok (dict_set summary "cpu"
                  (JStr (py_str rt manufacturer ++ " " ++ py_str rt brand
                         ++ " (" ++ py_str rt cores ++ " cores, "
                         ++ py_str rt threads ++ " threads)")))
          else Ok summary) ;;
       Ok (JDict [("summary", JDict summary); ("details", raw_info)]))
    (fun e =>
       Raise (Exception
                ("Failed to retrieve system information: " ++ str_exn e))).

Definition get_array_status : result json :=
  catch
    (response_data <- make_graphql_request query_array_status JNull ;;
     raw_array_info <- py_get response_data "array" (JDict []) ;;
     if negb (truthy raw_array_info)
     then Raise (Exception "No array information returned from Unraid API")
     else
       state <- py_get raw_array_info "state" JNull ;;
       disks <- py_get raw_array_info "disks" (JList []) ;;
       num_data_disks <- py_len disks ;;
       parities <- py_get raw_array_info "parities" (JList []) ;;
       num_parity_disks <- py_len parities ;;
       let summary := [
         ("state", state);
         ("num_data_disks", JInt num_data_disks);
         ("num_parity_disks", JInt num_parity_disks)
       ] in
       Ok (JDict [("summary", JDict summary); ("details", raw_array_info)]))
    (fun e =>
       Raise (Exception ("Failed to retrieve array status: " ++ str_exn e))).

Definition list_docker_containers : result json :=
  catch
    (response_data <- make_graphql_request query_docker_containers JNull ;;
     docker <- py_get response_data "docker" JNull ;;
     if truthy docker then
       docker <- py_getitem response_data "docker" ;;
       py_get docker "containers" (JList [])
     else Ok (JList []))
    (fun e =>
       Raise (Exception ("Failed to list Docker containers: " ++ str_exn e))).

Definition health_check : result json :=
  catch
    (response_data <- make_graphql_request query_health_check JNull ;;
     info <- py_get response_data "info" (JDict []) ;;
     Ok (JDict [
       ("status", JStr "healthy");
       ("server", JStr "Unraid MCP Server");
       ("api_connection", JStr "ok");
       ("unraid_system", info)
     ]))
    (fun e =>
       Ok (JDict [("status", JStr "unhealthy"); ("error", JStr (str_exn e))])).

Definition text_content (s : string) : TextContent :=
  {| type := "text"; text := s |}.

Definition call_tool (name : string) (arguments : json)
  : result (list TextContent) :=
  catch
    (if String.eqb name "get_system_info" then
       result <- get_system_info ;; Ok [text_content (dumps rt result)]
     else if String.eqb name "get_array_status" then
       result <- get_array_status ;; Ok [text_content (dumps rt result)]
     else if String.eqb name "list_docker_containers" then
       result <- list_docker_containers ;; Ok [text_content (dumps rt result)]
     else if String.eqb name "health_check" then
       result <- health_check ;; Ok [text_content (dumps rt result)]
     else Raise (Exception ("Unknown tool: " ++ name)))
    (fun e => Ok [text_content ("Error: " ++ str_exn e)]).

End Tools.

(** [mcp.types.Tool], with the two fields the program sets. *)
Record Tool : Type := {
  name : string;
  description : string
}.

Definition list_tools : list Tool := [
  {| name := "get_system_info";
     description :=
       "Get comprehensive Unraid system information including OS, CPU, and memory details" |};
  {| name := "get_array_status";
     description :=
       "Get current status of the Unraid storage array including capacity and disk health" |};
  {| name := "list_docker_containers";
     description := "List all Docker containers running on the Unraid system" |};
  {| name := "health_check";
     description := "Check the health status of the Unraid MCP server and system" |}
].

End Simple.

(** * Vocabulary of the statements *)

(** The JSON body the executor posts for a query and its variables. *)
Definition request_payload (query : string) (variables : json) : json :=
  JDict (("query", JStr query)
         :: if truthy variables then [("variables", variables)] else []).

(** The [errors] key of a response body is absent or holds an empty array
    (or another value Python takes for false). *)
Definition no_errors (fields : list (string * json)) : bool :=
  match assoc "errors" fields with
  | None => true
  | Some errors => negb (truthy errors)
  end.


(** A runtime to evaluate examples with. *)
Definition sample_runtime : runtime := {|
  repr := fun _ => "?";
  int_of_str := fun s => Raise (ValueError ("invalid literal for int(): " ++ s));
  dumps := fun v => "<json>";
  utcnow := "2024-05-01T12:00:00"
|}.

(** An upstream that answers every request with the same response. *)
Definition always (r : response) : json -> reply := fun _ => PostReturns r.

Definition ok_response (v : json) : response :=
  {| status_code := 200; status_message := ""; body := Ok v |}.

(** The value under [key], [None] (JSON null) when the key is absent: what
    [d.get(key)] answers on a dict. *)
Definition field_or_null (fields : list (string * json)) (key : string) : json :=
  match assoc key fields with
  | Some v => v
  | None => JNull
  end.

(** A field is missing: absent, or holding a value Python takes for false
    (null, an empty object, an empty array, ...). *)
Definition missing (fields : list (string * json)) (key : string) : bool :=
  match assoc key fields with
  | None => true
  | Some v => negb (truthy v)
  end.



Definition is_object (v : json) : bool :=
  match v with
  | JDict _ => true
  | _ => false
  end.

(** The container is an object whose [state] is the string [wanted]. *)
Definition has_state (wanted : string) (container : json) : bool :=
  match container with
  | JDict fields =>
      match assoc "state" fields with
      | Some (JStr s) => String.eqb s wanted
      | _ => false
      end
  | _ => false
  end.

Definition count_with_state (wanted : string) (containers : list json) : Z :=
  Z.of_nat (List.length (filter (has_state wanted) containers)).

Definition docker_summary (total running stopped : Z) : json :=
  JDict [("total", JInt total); ("running", JInt running);
         ("stopped", JInt stopped)].

Definition container_in_state (state : string) : json :=
  JDict [("id", JStr "c"); ("state", JStr state)].

(** The object under [key]: empty when the key is absent or holds a value
    Python takes for false, undefined when it holds anything else that is
    not an object. *)
Definition sub_object (fields : list (string * json)) (key : string)
  : option (list (string * json)) :=
  match assoc key fields with
  | None => Some []
  | Some (JDict o) => Some o
  | Some v => if truthy v then None else Some []
  end.

(** The entries a summary gets from an object: none when it is empty. *)
Definition when_present (o : list (string * json))
           (entries : list (string * json)) : list (string * json) :=
  match o with
  | [] => []
  | _ => entries
  end.

(** The text of a field, blank when the field is absent. *)
Definition text_or_blank (rt : runtime) (fields : list (string * json))
           (key : string) : string :=
  match assoc key fields with
  | Some v => py_str rt v
  | None => ""
  end.

(** "{distro} {release} ({platform})". *)
Definition os_line (rt : runtime) (os : list (string * json)) : string :=
  text_or_blank rt os "distro" ++ " " ++ text_or_blank rt os "release"
  ++ " (" ++ text_or_blank rt os "platform" ++ ")".

(** "{manufacturer} {brand} ({cores} cores, {threads} threads)". *)
Definition cpu_line (rt : runtime) (cpu : list (string * json)) : string :=
  text_or_blank rt cpu "manufacturer" ++ " " ++ text_or_blank rt cpu "brand"
  ++ " (" ++ py_str rt (field_or_null cpu "cores") ++ " cores, "
  ++ py_str rt (field_or_null cpu "threads") ++ " threads)".

Definition os_entries (rt : runtime) (os : list (string * json))
  : list (string * json) :=
  [("os", JStr (os_line rt os));
   ("hostname", field_or_null os "hostname");
   ("uptime", field_or_null os "uptime")].

Definition cpu_entries (rt : runtime) (cpu : list (string * json))
  : list (string * json) :=
  [("cpu", JStr (cpu_line rt cpu))].

Definition version_entries (versions : list (string * json))
  : list (string * json) :=
  [("unraid_version", field_or_null versions "unraid")].

(** The system summary, as the specification words it. *)
Definition system_summary (rt : runtime) (os cpu : list (string * json))
  : list (string * json) :=
  (when_present os (os_entries rt os)
   ++ when_present cpu (cpu_entries rt cpu))%list.

Definition sample_cpu : json :=
  JDict [("manufacturer", JStr "Intel"); ("brand", JStr "i7");
         ("cores", JInt 8); ("threads", JInt 16)].

(** [n / d] written with two decimals: the exact quotient rounded to the
    nearest hundredth, ties to the even one. *)
Definition two_decimals (n d : Z) : string :=
  hundredths (round_half_even (100 * n) d).

(** The capacity formatter, as the specification words it; [None] is a
    missing figure. *)
Definition spec_format_kb (k : option Z) : string :=
  match k with
  | None => "N/A"
  | Some k =>
      if 1073741824 <=? k then two_decimals k 1073741824 ++ " TB"
      else if 1048576 <=? k then two_decimals k 1048576 ++ " GB"
      else if 1024 <=? k then two_decimals k 1024 ++ " MB"
      else str_int k ++ " KB"
  end.



(** The array under [key], empty when the key is absent: what
    [d.get(key, [])] answers on a dict. *)
Definition listed (fields : list (string * json)) (key : string) : json :=
  match assoc key fields with
  | Some v => v
  | None => JList []
  end.

(** The three entries both front ends put in the array summary. *)
Definition array_summary (array : list (string * json)) (data parity : Z)
  : list (string * json) :=
  [("state", field_or_null array "state");
   ("num_data_disks", JInt data);
   ("num_parity_disks", JInt parity)].

(** The [capacity] entry of the HTTP summary: none without kilobyte
    figures, else total, used and free, each formatted on its own. *)
Definition capacity_entries (rt : runtime) (kilobytes : list (string * json))
  : result (list (string * json)) :=
  match kilobytes with
  | [] => Ok []
  | _ =>
      total <- Http.format_kb rt (field_or_null kilobytes "total") ;;
      used <- Http.format_kb rt (field_or_null kilobytes "used") ;;
      free <- Http.format_kb rt (field_or_null kilobytes "free") ;;
      Ok [("capacity", JDict [("total", JStr total); ("used", JStr used);
                              ("free", JStr free)])]
  end.

(** An entry of the summary of an answer. *)
Definition summary_field (answer : json) (key : string) : option json :=
  match answer with
  | JDict fields =>
      match assoc "summary" fields with
      | Some (JDict summary) => assoc key summary
      | _ => None
      end
  | _ => None
  end.

(** * Vocabulary of the further properties *)

(** The text an entry of [errors] adds to the message of the executor: its
    [message] when that is a string, [str] of the whole entry when it has
    no [message]; undefined for any other entry. *)
Definition entry_text (rt : runtime) (err : json) : option string :=
  match err with
  | JDict fields =>
      match assoc "message" fields with
      | Some (JStr m) => Some m
      | Some _ => None
      | None => Some (py_str rt err)
      end
  | _ => None
  end.

(** The value [.get("message", str(err))] finds in an entry that is an
    object. *)
Definition entry_value (rt : runtime) (err : json) : option json :=
  match err with
  | JDict fields =>
      Some (match assoc "message" fields with
            | Some v => v
            | None => JStr (py_str rt err)
            end)
  | _ => None
  end.

Definition is_text (v : json) : bool :=
  match v with
  | JStr _ => true
  | _ => false
  end.

(** A top-level field of an answer. *)
Definition answer_field (answer : json) (key : string) : option json :=
  match answer with
  | JDict fields => assoc key fields
  | _ => None
  end.

(** The payload of a query sent without variables. *)
Definition bare_query (query : string) : json := JDict [("query", JStr query)].



(** * The request executor *)

Lemma simple_executor_is_http_executor :
  Simple.make_graphql_request = Http.make_graphql_request.
Proof. reflexivity. Qed.

Lemma join_from_strings (sep : string) (msgs : list string) :
  forall i, join_from i sep (map JStr msgs) = Ok (concat sep msgs).
Proof.
  induction msgs as [|m [|m' rest] IH]; intro i; simpl; try reflexivity.
  specialize (IH (i + 1)). simpl in IH. rewrite IH. reflexivity.
Qed.



Lemma executor_success (rt : runtime) (post : json -> reply)
      (query : string) (variables : json) (r : response)
      (fields : list (string * json)) :
  post (request_payload query variables) = PostReturns r ->
  is_success r = true ->
  body r = Ok (JDict fields) ->
  no_errors fields = true ->
  Http.make_graphql_request rt post query variables
  = Ok (match assoc "data" fields with Some d => d | None => JDict [] end).
Proof.
  intros Hpost Hs Hb Hne.
  unfold Http.make_graphql_request. fold (request_payload query variables).
  rewrite Hpost. unfold raise_for_status. rewrite Hs. simpl.
  rewrite Hb. simpl. unfold no_errors in Hne.
  destruct (assoc "errors" fields) as [errors|]; simpl.
  - apply negb_true_iff in Hne. rewrite Hne. reflexivity.
  - reflexivity.
Qed.

Lemma executor_bad_status (rt : runtime) (post : json -> reply)
      (query : string) (variables : json) (r : response) :
  post (request_payload query variables) = PostReturns r ->
  is_success r = false ->
  Http.make_graphql_request rt post query variables
  = Raise (HTTPStatusError (status_code r) (status_message r)).
Proof.
  intros Hpost Hs.
  unfold Http.make_graphql_request. fold (request_payload query variables).
  rewrite Hpost. unfold raise_for_status. rewrite Hs. reflexivity.
Qed.

(** C7. With a success status and an [errors] key that is absent or empty,
    the executor of either front end returns the value of [data], and the
    empty dict when [data] is absent. *)
Theorem executor_returns_data (rt : runtime) (post : json -> reply)
      (query : string) (variables : json) (r : response)
      (fields : list (string * json)) :
  post (request_payload query variables) = PostReturns r ->
  is_success r = true ->
  body r = Ok (JDict fields) ->
  no_errors fields = true ->
  Http.make_graphql_request rt post query variables
  = Ok (match assoc "data" fields with Some d => d | None => JDict [] end)
  /\ Simple.make_graphql_request rt post query variables
     = Ok (match assoc "data" fields with Some d => d | None => JDict [] end).
Proof.
  intros Hpost Hs Hb Hne. rewrite simple_executor_is_http_executor.
  split; eapply executor_success; eassumption.
Qed.

(** An empty [errors] array next to no [data] at all: the executor returns
    the empty dict. *)
Lemma executor_returns_data_witness :
  let r := ok_response (JDict [("errors", JList [])]) in
  Http.make_graphql_request sample_runtime (always r) "query { x }" JNull
  = Ok (JDict [])
  /\ Simple.make_graphql_request sample_runtime (always r) "query { x }" JNull
     = Ok (JDict []).
Proof.
  intro r.
  apply (executor_returns_data sample_runtime (always r) "query { x }" JNull r
           [("errors", JList [])]); reflexivity.
Defined.

(** * Failures of the executor, seen from the operations *)

Section ExecutorFailure.

Variable rt : runtime.
Variable post : json -> reply.
Variable e : exn.









End ExecutorFailure.




(** * The tool dispatcher *)


Example call_tool_nonexistent :
  Simple.call_tool sample_runtime (always (ok_response (JDict []))) "nonexistent" (JDict [])
  = Ok [Simple.text_content "Error: Unknown tool: nonexistent"].
Proof. reflexivity. Qed.

(** * Health check *)




(** * Docker containers *)

Lemma filter_by_state (wanted : string) (containers : list json) :
  forallb is_object containers = true ->
  filterM (fun c => state <- py_get c "state" JNull ;;
                    Ok (py_eq_str state wanted)) containers
  = Ok (filter (has_state wanted) containers).
Proof.
  induction containers as [|c rest IH]; intro Hobj; [reflexivity|].
  simpl in Hobj. apply andb_true_iff in Hobj as [Hc Hrest].
  destruct c as [| | | | | |fields]; try discriminate.
  cbn [filterM]. rewrite (IH Hrest). simpl.
  destruct (assoc "state" fields) as [[| | | |s| |]|]; reflexivity.
Qed.

Lemma count_state_objects (wanted : string) (containers : list json) :
  forallb is_object containers = true ->
  Http.count_state containers wanted = Ok (count_with_state wanted containers).
Proof.
  intro Hobj. unfold Http.count_state. rewrite (filter_by_state _ _ Hobj).
  reflexivity.
Qed.

Lemma http_docker_listing (rt : runtime) (post : json -> reply)
      (fields docker : list (string * json)) (containers : list json) :
  Http.make_graphql_request rt post Http.query_docker_containers JNull
  = Ok (JDict fields) ->
  assoc "docker" fields = Some (JDict docker) ->
  assoc "containers" docker = Some (JList containers) ->
  forallb is_object containers = true ->
  Http.list_docker_containers rt post
  = Ok (JDict [
          ("summary",
           docker_summary (Z.of_nat (List.length containers))
                          (count_with_state "running" containers)
                          (count_with_state "exited" containers));
          ("containers", JList containers)]).
Proof.
  intros Hexec Hdocker Hcont Hobj.
  unfold Http.list_docker_containers. rewrite Hexec.
  cbn [bind py_get catch]. rewrite Hdocker.
  destruct docker as [|d0 docker']; [discriminate|].
  cbn [truthy py_getitem]. rewrite Hdocker.
  cbn [bind py_get]. rewrite Hcont. cbn [bind py_iter].
  rewrite !(count_state_objects _ _ Hobj). reflexivity.
Qed.

Lemma disjoint_filters_length {A : Type} (p q : A -> bool) (l : list A) :
  (forall a, p a && q a = false) ->
  (List.length (filter p l) + List.length (filter q l) <= List.length l)%nat.
Proof.
  intro Hdisj. induction l as [|a l IH]; simpl; [lia|].
  specialize (Hdisj a).
  destruct (p a), (q a); simpl in *; try discriminate; lia.
Qed.

Lemma running_is_not_exited (c : json) :
  has_state "running" c && has_state "exited" c = false.
Proof.
  destruct c as [| | | | | |fields]; try reflexivity. simpl.
  destruct (assoc "state" fields) as [[| | | |s| |]|]; try reflexivity.
  destruct (String.eqb_spec s "running") as [->|]; reflexivity.
Qed.

(** C4. For a list of container objects under [docker.containers], the
    summary of the HTTP front end counts all containers as [total], those
    whose [state] is "running" as [running] and those whose [state] is
    "exited" as [stopped]; a container in any other state adds to neither. *)
Theorem docker_summary_counts_states
      (rt : runtime) (post : json -> reply)
      (fields docker : list (string * json)) (containers : list json) :
  Http.make_graphql_request rt post Http.query_docker_containers JNull
  = Ok (JDict fields) ->
  assoc "docker" fields = Some (JDict docker) ->
  assoc "containers" docker = Some (JList containers) ->
  forallb is_object containers = true ->
  Http.list_docker_containers rt post
  = Ok (JDict [
          ("summary",
           docker_summary (Z.of_nat (List.length containers))
                          (count_with_state "running" containers)
                          (count_with_state "exited" containers));
          ("containers", JList containers)])
  /\ (forall state c,
         state <> "running" -> state <> "exited" ->
         assoc "state" c = Some (JStr state) ->
         has_state "running" (JDict c) = false
         /\ has_state "exited" (JDict c) = false).
Proof.
  intros Hexec Hdocker Hcont Hobj.
  split; [eapply http_docker_listing; eassumption|].
  intros state c Hr He Hstate. simpl. rewrite Hstate.
  split; apply String.eqb_neq; assumption.
Qed.

(** Two running containers, an exited one and a paused one. *)
Lemma docker_summary_counts_states_witness :
  let containers := map container_in_state
                        ["running"; "running"; "exited"; "paused"] in
  Http.list_docker_containers sample_runtime
    (always (ok_response (JDict [
       ("data", JDict [("docker", JDict [("containers", JList containers)])])])))
  = Ok (JDict [("summary", docker_summary 4 2 1);
               ("containers", JList containers)]).
Proof.
  intro containers.
  apply (docker_summary_counts_states sample_runtime _
           [("docker", JDict [("containers", JList containers)])]
           [("containers", JList containers)] containers);
    reflexivity.
Defined.

Lemma chars_length (s : string) :
  List.length (chars s) = String.length s.
Proof. induction s as [|c s IH]; simpl; congruence. Qed.

Lemma iter_length (containers : json) (items : list json) (total : Z) :
  py_iter containers = Ok items ->
  py_len containers = Ok total ->
  total = Z.of_nat (List.length items).
Proof.
  destruct containers; simpl; try discriminate;
    intros [= <-] [= <-]; rewrite ?length_map, ?chars_length; reflexivity.
Qed.

Lemma filterM_disjoint_length {A : Type} (p q : A -> result bool)
      (l kept_p kept_q : list A) :
  (forall a bp bq, p a = Ok bp -> q a = Ok bq -> bp && bq = false) ->
  filterM p l = Ok kept_p ->
  filterM q l = Ok kept_q ->
  (List.length kept_p + List.length kept_q <= List.length l)%nat.
Proof.
  intro Hdisj. revert kept_p kept_q.
  induction l as [|a l IH]; intros kept_p kept_q; simpl.
  - intros [= <-] [= <-]. simpl. lia.
  - destruct (p a) as [bp|] eqn:Hp; [|discriminate].
    destruct (q a) as [bq|] eqn:Hq; [|intros _; discriminate].
    cbn [bind].
    destruct (filterM p l) as [kp|]; [|discriminate].
    destruct (filterM q l) as [kq|]; [|intros _; discriminate].
    cbn [bind]. intros [= <-] [= <-].
    specialize (IH kp kq eq_refl eq_refl).
    specialize (Hdisj a bp bq Hp Hq).
    destruct bp, bq; simpl in *; try discriminate; lia.
Qed.

Lemma state_tests_disjoint (c : json) (running exited : bool) :
  bind (py_get c "state" JNull) (fun state => Ok (py_eq_str state "running"))
  = Ok running ->
  bind (py_get c "state" JNull) (fun state => Ok (py_eq_str state "exited"))
  = Ok exited ->
  running && exited = false.
Proof.
  destruct (py_get c "state" JNull) as [state|]; [|discriminate].
  cbn [bind]. intros [= <-] [= <-].
  destruct state as [| | | |s| |]; try reflexivity. simpl.
  destruct (String.eqb_spec s "running") as [->|]; reflexivity.
Qed.

(** Whatever [docker.containers] holds, an answer of the HTTP route has a
    bounded summary. *)
Lemma docker_answer_is_bounded (rt : runtime) (post : json -> reply)
      (answer : json) :
  Http.list_docker_containers rt post = Ok answer ->
  exists total running stopped containers,
    answer = JDict [("summary", docker_summary total running stopped);
                    ("containers", containers)]
    /\ 0 <= running /\ 0 <= stopped /\ running + stopped <= total.
Proof.
  unfold Http.list_docker_containers. intro H.
  destruct (Http.make_graphql_request rt post Http.query_docker_containers JNull)
    as [response_data|]; cbn [bind catch] in H; [|discriminate].
  destruct (py_get response_data "docker" JNull) as [docker|];
    cbn [bind catch] in H; [|discriminate].
  destruct (truthy docker).
  - destruct (py_getitem response_data "docker") as [docker'|];
      cbn [bind catch] in H; [|discriminate].
    destruct (py_get docker' "containers" (JList [])) as [containers|];
      cbn [bind catch] in H; [|discriminate].
    destruct (py_iter containers) as [items|] eqn:Hiter;
      cbn [bind catch] in H; [|discriminate].
    unfold Http.count_state in H.
    destruct (filterM _ items) as [kept_running|] eqn:Hrun in H;
      cbn [bind catch] in H; [|discriminate].
    destruct (filterM _ items) as [kept_exited|] eqn:Hexit in H;
      cbn [bind catch] in H; [|discriminate].
    destruct (py_len containers) as [total|] eqn:Hlen;
      cbn [bind catch] in H; [|discriminate].
    injection H as <-.
    exists total, (Z.of_nat (List.length kept_running)),
           (Z.of_nat (List.length kept_exited)), containers.
    split; [reflexivity|].
    pose proof (iter_length _ _ _ Hiter Hlen).
    pose proof (filterM_disjoint_length _ _ _ _ _ state_tests_disjoint
                  Hrun Hexit).
    lia.
  - cbn [catch] in H. injection H as <-.
    exists 0, 0, 0, (JList []). repeat split; lia.
Qed.

(** C10. For a list of container objects the HTTP route answers with a
    summary in which [0 <= running], [0 <= stopped] and
    [running + stopped <= total]; the same bounds hold on every answer the
    route gives. *)
Theorem docker_summary_is_bounded
      (rt : runtime) (post : json -> reply)
      (fields docker : list (string * json)) (containers : list json) :
  Http.make_graphql_request rt post Http.query_docker_containers JNull
  = Ok (JDict fields) ->
  assoc "docker" fields = Some (JDict docker) ->
  assoc "containers" docker = Some (JList containers) ->
  forallb is_object containers = true ->
  (exists total running stopped,
      Http.list_docker_containers rt post
      = Ok (JDict [("summary", docker_summary total running stopped);
                   ("containers", JList containers)])
      /\ total = Z.of_nat (List.length containers)
      /\ 0 <= running /\ 0 <= stopped /\ running + stopped <= total)
  /\ (forall rt' post' answer,
         Http.list_docker_containers rt' post' = Ok answer ->
         exists total running stopped listed,
           answer = JDict [("summary", docker_summary total running stopped);
                           ("containers", listed)]
           /\ 0 <= running /\ 0 <= stopped /\ running + stopped <= total).
Proof.
  intros Hexec Hdocker Hcont Hobj. split.
  - exists (Z.of_nat (List.length containers)),
           (count_with_state "running" containers),
           (count_with_state "exited" containers).
    split; [eapply http_docker_listing; eassumption|].
    split; [reflexivity|].
    unfold count_with_state.
    pose proof (disjoint_filters_length (has_state "running")
                  (has_state "exited") containers running_is_not_exited).
    lia.
  - intros rt' post' answer. apply docker_answer_is_bounded.
Qed.

Lemma docker_summary_is_bounded_witness :
  let containers := map container_in_state ["running"; "exited"; "created"] in
  exists total running stopped,
    Http.list_docker_containers sample_runtime
      (always (ok_response (JDict [
         ("data", JDict [("docker", JDict [("containers", JList containers)])])])))
    = Ok (JDict [("summary", docker_summary total running stopped);
                 ("containers", JList containers)])
    /\ total = 3
    /\ 0 <= running /\ 0 <= stopped /\ running + stopped <= total.
Proof.
  intro containers.
  apply (proj1 (docker_summary_is_bounded sample_runtime
                  (always (ok_response (JDict [
                     ("data", JDict [("docker",
                                      JDict [("containers", JList containers)])])])))
                  [("docker", JDict [("containers", JList containers)])]
                  [("containers", JList containers)] containers
                  eq_refl eq_refl eq_refl eq_refl)).
Defined.

(** * Missing top-level fields *)

Section MissingFields.

Variable rt : runtime.
Variable post : json -> reply.
Variable fields : list (string * json).

Lemma http_missing_info :
  Http.make_graphql_request rt post Http.query_system_info JNull
  = Ok (JDict fields) ->
  missing fields "info" = true ->
  Http.get_system_info rt post
  = Raise (HTTPException 500
             ("Failed to retrieve system information: "
              ++ str_exn (HTTPException 404
                            "No system info returned from Unraid API"))).
Proof.
  intros Hexec Hmiss. unfold Http.get_system_info. rewrite Hexec.
  unfold missing in Hmiss. cbn [bind py_get].
  destruct (assoc "info" fields) as [info|].
  - rewrite Hmiss. reflexivity.
  - reflexivity.
Qed.

Lemma simple_missing_info :
  Simple.make_graphql_request rt post Simple.query_system_info JNull
  = Ok (JDict fields) ->
  missing fields "info" = true ->
  Simple.get_system_info rt post
  = Raise (Exception
             "Failed to retrieve system information: No system info returned from Unraid API").
Proof.
  intros Hexec Hmiss. unfold Simple.get_system_info. rewrite Hexec.
  unfold missing in Hmiss. cbn [bind py_get].
  destruct (assoc "info" fields) as [info|].
  - rewrite Hmiss. reflexivity.
  - reflexivity.
Qed.

Lemma http_missing_docker :
  Http.make_graphql_request rt post Http.query_docker_containers JNull
  = Ok (JDict fields) ->
  missing fields "docker" = true ->
  Http.list_docker_containers rt post
  = Ok (JDict [("summary", docker_summary 0 0 0); ("containers", JList [])]).
Proof.
  intros Hexec Hmiss. unfold Http.list_docker_containers. rewrite Hexec.
  unfold missing in Hmiss. cbn [bind py_get].
  destruct (assoc "docker" fields) as [docker|].
  - apply negb_true_iff in Hmiss. rewrite Hmiss. reflexivity.
  - reflexivity.
Qed.

Lemma simple_missing_docker :
  Simple.make_graphql_request rt post Simple.query_docker_containers JNull
  = Ok (JDict fields) ->
  missing fields "docker" = true ->
  Simple.list_docker_containers rt post = Ok (JList []).
Proof.
  intros Hexec Hmiss. unfold Simple.list_docker_containers. rewrite Hexec.
  unfold missing in Hmiss. cbn [bind py_get].
  destruct (assoc "docker" fields) as [docker|].
  - apply negb_true_iff in Hmiss. rewrite Hmiss. reflexivity.
  - reflexivity.
Qed.

End MissingFields.


(** * System information *)

Lemma py_get_some (fields : list (string * json)) (key : string)
      (default v : json) :
  assoc key fields = Some v -> py_get (JDict fields) key default = Ok v.
Proof. intro H. unfold py_get. rewrite H. reflexivity. Qed.

Lemma py_get_field (fields : list (string * json)) (key : string) :
  py_get (JDict fields) key JNull = Ok (field_or_null fields key).
Proof. reflexivity. Qed.

Lemma truthy_object (o : list (string * json)) :
  o <> [] -> truthy (JDict o) = true.
Proof. destruct o; [congruence|reflexivity]. Qed.

(** What [d.get(key)] and [d[key]] give for a key that [sub_object]
    accepts. *)
Lemma sub_object_cases (fields : list (string * json)) (key : string)
      (o : list (string * json)) :
  sub_object fields key = Some o ->
  (o = [] /\ truthy (field_or_null fields key) = false)
  \/ (o <> [] /\ truthy (field_or_null fields key) = true
      /\ py_getitem (JDict fields) key = Ok (JDict o)).
Proof.
  unfold sub_object, field_or_null, py_getitem.
  destruct (assoc key fields) as [v|]; [|intros [= <-]; left; split; reflexivity].
  destruct v as [| | | | | |o'].
  7:{ intros [= <-]. destruct o' as [|p o'].
      - left. split; reflexivity.
      - right. repeat split; congruence. }
  all: destruct (truthy _) eqn:Ht; intros [= <-]; left; split; congruence.
Qed.

Lemma py_str_default (rt : runtime) (fields : list (string * json))
      (key : string) :
  py_str rt (match assoc key fields with Some x => x | None => JStr "" end)
  = text_or_blank rt fields key.
Proof. unfold text_or_blank. destruct (assoc key fields); reflexivity. Qed.

Ltac summary_block H :=
  let Hempty := fresh "Hempty" in
  let Hfalse := fresh "Hfalse" in
  let Hfull := fresh "Hfull" in
  let Htrue := fresh "Htrue" in
  let Hitem := fresh "Hitem" in
  destruct (sub_object_cases _ _ _ H)
    as [[Hempty Hfalse]|[Hfull [Htrue Hitem]]];
  [ rewrite Hfalse; subst
  | rewrite Htrue, Hitem; cbn [bind py_get]; rewrite ?py_str_default ].

Lemma simple_system_summary (rt : runtime) (post : json -> reply)
      (fields info os cpu : list (string * json)) :
  Simple.make_graphql_request rt post Simple.query_system_info JNull
  = Ok (JDict fields) ->
  assoc "info" fields = Some (JDict info) ->
  info <> [] ->
  sub_object info "os" = Some os ->
  sub_object info "cpu" = Some cpu ->
  Simple.get_system_info rt post
  = Ok (JDict [("summary", JDict (system_summary rt os cpu));
               ("details", JDict info)]).
Proof.
  intros Hexec Hinfo Hne Hos Hcpu.
  unfold Simple.get_system_info. rewrite Hexec. cbn [bind].
  rewrite (py_get_some _ _ _ _ Hinfo). cbn [bind].
  rewrite (truthy_object _ Hne). cbn [negb].
  rewrite !py_get_field. cbn [bind].
  summary_block Hos; cbn [bind]; rewrite ?py_get_field; cbn [bind];
    summary_block Hcpu; cbn [bind catch];
    repeat match goal with
           | H : ?o <> [] |- _ => destruct o; [congruence|]; clear H
           end;
    reflexivity.
Qed.

Lemma http_system_summary (rt : runtime) (post : json -> reply)
      (fields info os cpu versions : list (string * json)) :
  Http.make_graphql_request rt post Http.query_system_info JNull
  = Ok (JDict fields) ->
  assoc "info" fields = Some (JDict info) ->
  info <> [] ->
  sub_object info "os" = Some os ->
  sub_object info "cpu" = Some cpu ->
  sub_object info "versions" = Some versions ->
  Http.get_system_info rt post
  = Ok (JDict [("summary",
                JDict (system_summary rt os cpu
                       ++ when_present versions (version_entries versions)));
               ("details", JDict info)]).
Proof.
  intros Hexec Hinfo Hne Hos Hcpu Hver.
  unfold Http.get_system_info. rewrite Hexec. cbn [bind].
  rewrite (py_get_some _ _ _ _ Hinfo). cbn [bind].
  rewrite (truthy_object _ Hne). cbn [negb].
  rewrite !py_get_field. cbn [bind].
  summary_block Hos; cbn [bind]; rewrite ?py_get_field; cbn [bind];
    summary_block Hcpu; cbn [bind]; rewrite ?py_get_field; cbn [bind];
    summary_block Hver; cbn [bind catch];
    repeat match goal with
           | H : ?o <> [] |- _ => destruct o; [congruence|]; clear H
           end;
    reflexivity.
Qed.

(** C8 (amended).  For a successful answer with a non-empty [info] object:
    when [os] is a non-empty object the summary maps [os] to
    "{distro} {release} ({platform})", a missing field left blank, and
    copies [hostname] and [uptime]; when [cpu] is a non-empty object it maps
    [cpu] to "{manufacturer} {brand} ({cores} cores, {threads} threads)";
    an [os] or [cpu] that is absent or empty adds no key at all.  The
    summary is a function of the [info] object alone. *)
Theorem system_summary_follows_info
      (rt : runtime) (post : json -> reply)
      (fields info os cpu : list (string * json)) :
  assoc "info" fields = Some (JDict info) ->
  info <> [] ->
  sub_object info "os" = Some os ->
  sub_object info "cpu" = Some cpu ->
  (Simple.make_graphql_request rt post Simple.query_system_info JNull
   = Ok (JDict fields) ->
   Simple.get_system_info rt post
   = Ok (JDict [("summary", JDict (system_summary rt os cpu));
                ("details", JDict info)]))
  /\ (forall versions,
         Http.make_graphql_request rt post Http.query_system_info JNull
         = Ok (JDict fields) ->
         sub_object info "versions" = Some versions ->
         Http.get_system_info rt post
         = Ok (JDict [("summary",
                       JDict (system_summary rt os cpu
                              ++ when_present versions
                                   (version_entries versions)));
                      ("details", JDict info)])).
Proof.
  intros Hinfo Hne Hos Hcpu. split.
  - intro Hexec. eapply simple_system_summary; eassumption.
  - intros versions Hexec Hver. eapply http_system_summary; eassumption.
Qed.

(** An [os] without [platform] and the Intel i7 of the specification. *)
Lemma system_summary_follows_info_witness :
  let os := JDict [("distro", JStr "Unraid"); ("release", JStr "6.12");
                   ("hostname", JStr "tower"); ("uptime", JStr "2024-04-30")] in
  let info := JDict [("os", os); ("cpu", sample_cpu)] in
  Simple.get_system_info sample_runtime
    (always (ok_response (JDict [("data", JDict [("info", info)])])))
  = Ok (JDict [
          ("summary", JDict [
             ("os", JStr "Unraid 6.12 ()");
             ("hostname", JStr "tower");
             ("uptime", JStr "2024-04-30");
             ("cpu", JStr "Intel i7 (8 cores, 16 threads)")]);
          ("details", info)]).
Proof.
  intros os info.
  apply (proj1 (system_summary_follows_info sample_runtime _
                  [("info", info)]
                  [("os", os); ("cpu", sample_cpu)]
                  [("distro", JStr "Unraid"); ("release", JStr "6.12");
                   ("hostname", JStr "tower"); ("uptime", JStr "2024-04-30")]
                  [("manufacturer", JStr "Intel"); ("brand", JStr "i7");
                   ("cores", JInt 8); ("threads", JInt 16)]
                  eq_refl ltac:(discriminate) eq_refl eq_refl)).
  reflexivity.
Defined.

(** C8, as stated, fails: an [os] object with every field missing is left
    out of the summary, not rendered with blanks. *)
Lemma system_summary_without_os :
  let info := JDict [("os", JDict []); ("cpu", sample_cpu)] in
  let post := always (ok_response (JDict [("data", JDict [("info", info)])])) in
  Simple.get_system_info sample_runtime post
  = Ok (JDict [("summary",
                JDict [("cpu", JStr "Intel i7 (8 cores, 16 threads)")]);
               ("details", info)])
  /\ Http.get_system_info sample_runtime post
     = Ok (JDict [("summary",
                   JDict [("cpu", JStr "Intel i7 (8 cores, 16 threads)")]);
                  ("details", info)])
  /\ assoc "os" [("cpu", JStr "Intel i7 (8 cores, 16 threads)")] = None.
Proof. repeat split. Qed.

(** * The capacity formatter *)

Lemma round_half_even_exact (n d : Z) :
  0 < d -> round_half_even (n * d) d = n.
Proof.
  intro Hd. unfold round_half_even.
  rewrite Z.div_mul, Z.mod_mul by lia.
  destruct (Z.ltb_spec (2 * 0) d); [reflexivity|lia].
Qed.

Lemma round_half_even_scale (n d c : Z) :
  0 < d -> 0 < c -> round_half_even (n * c) (d * c) = round_half_even n d.
Proof.
  intros Hd Hc. unfold round_half_even.
  rewrite Z.div_mul_cancel_r, Z.mul_mod_distr_r by lia.
  destruct (Z.ltb_spec (2 * (n mod d * c)) (d * c)),
           (Z.ltb_spec (2 * (n mod d)) d); try nia; try reflexivity.
  destruct (Z.ltb_spec (d * c) (2 * (n mod d * c))),
           (Z.ltb_spec d (2 * (n mod d))); try nia; reflexivity.
Qed.

Lemma quotient_log2_pow2 (k e : Z) :
  0 <= e -> 2 ^ e <= k -> quotient_log2 k (2 ^ e) = Z.log2 k - e.
Proof.
  intros He Hk.
  assert (Hpos : 0 < 2 ^ e) by (apply Z.pow_pos_nonneg; lia).
  assert (Hle : e <= Z.log2 k) by (apply Z.log2_le_pow2; lia).
  unfold quotient_log2. rewrite Z.log2_pow2 by lia.
  destruct (Z.leb_spec 0 (Z.log2 k - e)); [|lia].
  rewrite <- Z.pow_add_r by lia.
  replace (e + (Z.log2 k - e)) with (Z.log2 k) by lia.
  destruct (Z.leb_spec (2 ^ Z.log2 k) k); [reflexivity|].
  pose proof (Z.log2_spec k ltac:(lia)). lia.
Qed.

(** Below [2^53] the quotient by a power of two is a double: the division
    rounds nothing away. *)
Lemma truediv_pow2_exact (k e : Z) :
  0 < e -> 2 ^ e <= k -> k < 2 ^ 53 ->
  py_truediv k (2 ^ e)
  = Ok (Finite (k * 2 ^ (52 - Z.log2 k)) (Z.log2 k - e - 52)).
Proof.
  intros He Hk Hlt.
  assert (Hpos : 0 < 2 ^ e) by (apply Z.pow_pos_nonneg; lia).
  assert (Hle : e <= Z.log2 k) by (apply Z.log2_le_pow2; lia).
  assert (Hlog : Z.log2 k < 53) by (apply Z.log2_lt_pow2; lia).
  unfold py_truediv.
  destruct (Z.eqb_spec (2 ^ e) 0); [lia|].
  destruct (Z.eqb_spec k 0); [lia|].
  rewrite (Z.abs_eq k), (Z.abs_eq (2 ^ e)) by lia.
  unfold truediv_pos. rewrite quotient_log2_pow2 by lia.
  rewrite Z.max_l by lia.
  destruct (Z.leb_spec 0 (Z.log2 k - e - 52)); [lia|].
  cbn [andb bind].
  replace (- (Z.log2 k - e - 52)) with ((52 - Z.log2 k) + e) by lia.
  rewrite Z.pow_add_r by lia. rewrite Z.mul_assoc.
  rewrite round_half_even_exact by lia.
  rewrite !Z.sgn_pos by lia. rewrite !Z.mul_1_l. reflexivity.
Qed.

(** The two decimals Python prints for such a quotient are those of the
    exact quotient. *)
Lemma format_2f_exact (k e : Z) :
  0 < e -> 2 ^ e <= k -> k < 2 ^ 53 ->
  format_2f (Finite (k * 2 ^ (52 - Z.log2 k)) (Z.log2 k - e - 52))
  = two_decimals k (2 ^ e).
Proof.
  intros He Hk Hlt.
  assert (Hpos : 0 < 2 ^ e) by (apply Z.pow_pos_nonneg; lia).
  assert (Hle : e <= Z.log2 k) by (apply Z.log2_le_pow2; lia).
  assert (Hlog : Z.log2 k < 53) by (apply Z.log2_lt_pow2; lia).
  assert (Hshift : 0 < 2 ^ (52 - Z.log2 k)) by (apply Z.pow_pos_nonneg; lia).
  unfold format_2f, two_decimals.
  destruct (Z.ltb_spec (k * 2 ^ (52 - Z.log2 k)) 0); [nia|].
  destruct (Z.leb_spec 0 (Z.log2 k - e - 52)); [lia|].
  rewrite Z.abs_eq by nia.
  replace (- (Z.log2 k - e - 52)) with (e + (52 - Z.log2 k)) by lia.
  rewrite Z.pow_add_r by lia.
  replace (k * 2 ^ (52 - Z.log2 k) * 100)
    with (100 * k * 2 ^ (52 - Z.log2 k)) by ring.
  rewrite round_half_even_scale by lia. reflexivity.
Qed.

Lemma format_kb_scaled (rt : runtime) (k e : Z) (unit : string) :
  0 < e -> 2 ^ e <= k -> k < 2 ^ 53 ->
  bind (py_truediv k (2 ^ e)) (fun q => Ok (format_2f q ++ unit))
  = Ok (two_decimals k (2 ^ e) ++ unit).
Proof.
  intros He Hk Hlt. rewrite truediv_pow2_exact by lia.
  cbn [bind]. rewrite format_2f_exact by lia. reflexivity.
Qed.

Lemma format_kb_below_2_53 (rt : runtime) (k : Z) :
  k < 2 ^ 53 -> Http.format_kb rt (JInt k) = Ok (spec_format_kb (Some k)).
Proof.
  intro Hlt. unfold Http.format_kb, spec_format_kb. cbn [py_int bind].
  change (1024 * 1024 * 1024) with (2 ^ 30).
  change (1024 * 1024) with (2 ^ 20).
  change 1024 with (2 ^ 10).
  change 1073741824 with (2 ^ 30).
  change 1048576 with (2 ^ 20).
  destruct (Z.leb_spec (2 ^ 30) k); [apply (format_kb_scaled rt); lia|].
  destruct (Z.leb_spec (2 ^ 20) k); [apply (format_kb_scaled rt); lia|].
  destruct (Z.leb_spec (2 ^ 10) k); [apply (format_kb_scaled rt); lia|].
  reflexivity.
Qed.

Lemma round_half_even_cases (n d : Z) :
  0 < d ->
  (round_half_even n d = n / d
   /\ 2 * (n mod d) <= d
   /\ (2 * (n mod d) = d -> Z.even (n / d) = true))
  \/ (round_half_even n d = n / d + 1
      /\ d <= 2 * (n mod d)
      /\ (2 * (n mod d) = d -> Z.even (n / d) = false)).
Proof.
  intro Hd. unfold round_half_even.
  destruct (Z.ltb_spec (2 * (n mod d)) d); [left; repeat split; lia|].
  destruct (Z.ltb_spec d (2 * (n mod d))); [right; repeat split; lia|].
  destruct (Z.even (n / d)) eqn:Heven;
    [left | right]; repeat split; auto; lia.
Qed.

Lemma round_half_even_nearest (n d : Z) :
  0 < d ->
  2 * Z.abs (n - round_half_even n d * d) <= d
  /\ (2 * Z.abs (n - round_half_even n d * d) = d ->
      Z.even (round_half_even n d) = true).
Proof.
  intro Hd.
  pose proof (Z.div_mod n d ltac:(lia)) as Hdm.
  pose proof (Z.mod_pos_bound n d Hd) as Hr.
  destruct (round_half_even_cases n d Hd) as [[-> [Hle Htie]]|[-> [Hle Htie]]].
  - split; [lia|]. intro H. apply Htie. lia.
  - split; [lia|]. intro H.
    rewrite Z.add_1_r, Z.even_succ, <- Z.negb_even.
    rewrite Htie by lia. reflexivity.
Qed.

Section LargeFigures.

Variable k : Z.
Hypothesis Hk : 2 ^ 53 <= k.

Let s := Z.log2 k - 52.
Let m := round_half_even k (2 ^ s).






End LargeFigures.






(** * Array status *)

Lemma py_get_listed (fields : list (string * json)) (key : string) :
  py_get (JDict fields) key (JList []) = Ok (listed fields key).
Proof. reflexivity. Qed.

Lemma array_queries_agree :
  Simple.query_array_status = Http.query_array_status.
Proof. reflexivity. Qed.

Section ArrayStatus.

Variable rt : runtime.
Variable post : json -> reply.
Variables fields array : list (string * json).
Variables data parity : Z.

Hypothesis Hexec :
  Http.make_graphql_request rt post Http.query_array_status JNull
  = Ok (JDict fields).
Hypothesis Harray : assoc "array" fields = Some (JDict array).
Hypothesis Hfull : array <> [].
Hypothesis Hdisks : py_len (listed array "disks") = Ok data.
Hypothesis Hparities : py_len (listed array "parities") = Ok parity.

Lemma simple_array_summary :
  Simple.get_array_status rt post
  = Ok (JDict [("summary", JDict (array_summary array data parity));
               ("details", JDict array)]).
Proof.
  unfold Simple.get_array_status.
  rewrite array_queries_agree, simple_executor_is_http_executor, Hexec.
  cbn [bind]. rewrite (py_get_some _ _ _ _ Harray). cbn [bind].
  rewrite (truthy_object _ Hfull). cbn [negb].
  rewrite py_get_field, !py_get_listed. cbn [bind].
  rewrite Hdisks. cbn [bind]. rewrite Hparities. reflexivity.
Qed.

Lemma http_array_summary (capacity kilobytes entries : list (string * json)) :
  sub_object array "capacity" = Some capacity ->
  sub_object capacity "kilobytes" = Some kilobytes ->
  capacity_entries rt kilobytes = Ok entries ->
  Http.get_array_status rt post
  = Ok (JDict [("summary",
                JDict (array_summary array data parity ++ entries));
               ("details", JDict array)]).
Proof.
  intros Hcap Hkb Hentries.
  unfold Http.get_array_status. rewrite Hexec.
  cbn [bind]. rewrite (py_get_some _ _ _ _ Harray). cbn [bind].
  rewrite (truthy_object _ Hfull). cbn [negb].
  rewrite !py_get_field, !py_get_listed. cbn [bind].
  rewrite Hdisks. cbn [bind]. rewrite Hparities. cbn [bind].
  destruct (sub_object_cases _ _ _ Hcap) as [[-> Hc]|[Hcne [Hc Hgc]]].
  - rewrite Hc. cbn [bind]. cbn in Hkb. injection Hkb as <-.
    cbn in Hentries. injection Hentries as <-. reflexivity.
  - rewrite Hc, Hgc. cbn [bind]. rewrite !py_get_field. cbn [bind].
    destruct (sub_object_cases _ _ _ Hkb) as [[-> Hk]|[Hkne [Hk Hgk]]].
    + rewrite Hk. cbn [bind]. cbn in Hentries. injection Hentries as <-.
      reflexivity.
    + rewrite Hk. cbn [bind]. rewrite Hgk. cbn [bind].
      rewrite !py_get_field.
      unfold capacity_entries in Hentries.
      destruct kilobytes as [|k0 kilobytes']; [congruence|]. cbn [bind].
      destruct (Http.format_kb rt (field_or_null (k0 :: kilobytes') "total"));
        cbn [bind] in *; [|discriminate].
      destruct (Http.format_kb rt (field_or_null (k0 :: kilobytes') "used"));
        cbn [bind] in *; [|discriminate].
      destruct (Http.format_kb rt (field_or_null (k0 :: kilobytes') "free"));
        cbn [bind] in *; [|discriminate].
      injection Hentries as <-. reflexivity.
Qed.

End ArrayStatus.

Lemma simple_summary_has_no_capacity (rt : runtime) (post : json -> reply)
      (answer : json) :
  Simple.get_array_status rt post = Ok answer ->
  summary_field answer "capacity" = None.
Proof.
  unfold Simple.get_array_status. intro H.
  repeat match type of H with
         | context [bind ?c _] =>
             destruct c eqn:?; cbn [bind catch] in H; try discriminate
         | context [if ?b then _ else _] =>
             destruct b eqn:?; cbn [bind catch] in H; try discriminate
         end.
  injection H as <-. reflexivity.
Qed.

(** C9.  Given the same non-empty [array] object, both front ends return a
    summary with the same [state] (copied), [num_data_disks] (the length of
    [disks]) and [num_parity_disks] (the length of [parities]).  The HTTP
    summary has a [capacity] entry, with total, used and free formatted,
    exactly when kilobyte figures are present; the summary of the tool
    front end never has one. *)
Theorem array_summaries_agree
      (rt : runtime) (post : json -> reply)
      (fields array capacity kilobytes entries : list (string * json))
      (data parity : Z) :
  Http.make_graphql_request rt post Http.query_array_status JNull
  = Ok (JDict fields) ->
  assoc "array" fields = Some (JDict array) ->
  array <> [] ->
  py_len (listed array "disks") = Ok data ->
  py_len (listed array "parities") = Ok parity ->
  sub_object array "capacity" = Some capacity ->
  sub_object capacity "kilobytes" = Some kilobytes ->
  capacity_entries rt kilobytes = Ok entries ->
  let tool := JDict [("summary", JDict (array_summary array data parity));
                     ("details", JDict array)] in
  let http := JDict [("summary",
                      JDict (array_summary array data parity ++ entries));
                     ("details", JDict array)] in
  Simple.get_array_status rt post = Ok tool
  /\ Http.get_array_status rt post = Ok http
  /\ summary_field tool "state" = Some (field_or_null array "state")
  /\ summary_field http "state" = Some (field_or_null array "state")
  /\ summary_field tool "num_data_disks" = Some (JInt data)
  /\ summary_field http "num_data_disks" = Some (JInt data)
  /\ summary_field tool "num_parity_disks" = Some (JInt parity)
  /\ summary_field http "num_parity_disks" = Some (JInt parity)
  /\ summary_field tool "capacity" = None
  /\ (kilobytes = [] -> summary_field http "capacity" = None)
  /\ (kilobytes <> [] ->
      exists total used free,
        Http.format_kb rt (field_or_null kilobytes "total") = Ok total
        /\ Http.format_kb rt (field_or_null kilobytes "used") = Ok used
        /\ Http.format_kb rt (field_or_null kilobytes "free") = Ok free
        /\ summary_field http "capacity"
           = Some (JDict [("total", JStr total); ("used", JStr used);
                          ("free", JStr free)]))
  /\ (forall answer,
         Simple.get_array_status rt post = Ok answer ->
         summary_field answer "capacity" = None).
Proof.
  intros Hexec Harray Hfull Hdisks Hparities Hcap Hkb Hentries tool http.
  split; [eapply simple_array_summary; eassumption|].
  split; [eapply http_array_summary; eassumption|].
  do 7 (split; [reflexivity|]).
  split; [|split].
  - intros ->. cbn in Hentries. injection Hentries as <-. reflexivity.
  - intro Hkne. unfold capacity_entries in Hentries.
    destruct kilobytes as [|k0 kilobytes']; [congruence|].
    destruct (Http.format_kb rt (field_or_null (k0 :: kilobytes') "total"))
      as [total|]; cbn [bind] in Hentries; [|discriminate].
    destruct (Http.format_kb rt (field_or_null (k0 :: kilobytes') "used"))
      as [used|]; cbn [bind] in Hentries; [|discriminate].
    destruct (Http.format_kb rt (field_or_null (k0 :: kilobytes') "free"))
      as [free|]; cbn [bind] in Hentries; [|discriminate].
    exists total, used, free. repeat split; try reflexivity.
    subst http. injection Hentries as <-. reflexivity.
  - apply simple_summary_has_no_capacity.
Qed.

(** The capacity of the specification, behind two data disks and one
    parity disk. *)
Lemma array_summaries_agree_witness :
  let kilobytes := [("free", JInt 1073741824); ("used", JInt 1073741824);
                    ("total", JInt 2147483648)] in
  let array := [("state", JStr "STARTED");
                ("capacity", JDict [("kilobytes", JDict kilobytes)]);
                ("disks", JList [JDict [("id", JStr "d1")];
                                 JDict [("id", JStr "d2")]]);
                ("parities", JList [JDict [("id", JStr "p1")]])] in
  let post := always (ok_response (JDict [
                ("data", JDict [("array", JDict array)])])) in
  Simple.get_array_status sample_runtime post
  = Ok (JDict [("summary", JDict [("state", JStr "STARTED");
                                  ("num_data_disks", JInt 2);
                                  ("num_parity_disks", JInt 1)]);
               ("details", JDict array)])
  /\ Http.get_array_status sample_runtime post
     = Ok (JDict [("summary",
                   JDict [("state", JStr "STARTED");
                          ("num_data_disks", JInt 2);
                          ("num_parity_disks", JInt 1);
                          ("capacity",
                           JDict [("total", JStr "2.00 TB");
                                  ("used", JStr "1.00 TB");
                                  ("free", JStr "1.00 TB")])]);
                  ("details", JDict array)]).
Proof.
  intros kilobytes array post.
  pose proof (array_summaries_agree sample_runtime post
                [("array", JDict array)] array
                [("kilobytes", JDict kilobytes)] kilobytes
                [("capacity",
                  JDict [("total", JStr "2.00 TB"); ("used", JStr "1.00 TB");
                         ("free", JStr "1.00 TB")])]
                2 1 eq_refl eq_refl ltac:(discriminate) eq_refl eq_refl
                eq_refl eq_refl eq_refl) as [Htool [Hhttp _]].
  split; [exact Htool | exact Hhttp].
Defined.

(** * Further properties of the request executor *)

(** X1.  The executor of either front end returns a value only for an
    answer with a success status whose body is a JSON object with no
    [errors] (absent or empty): the value is then its [data], or the empty
    object.  No other answer, and no non-empty [errors] of any shape, ever
    yields data. *)
Theorem executor_returns_only_clean_answers
      (rt : runtime) (post : json -> reply)
      (query : string) (variables d : json) :
  Http.make_graphql_request rt post query variables = Ok d
  \/ Simple.make_graphql_request rt post query variables = Ok d ->
  exists r fields,
    post (request_payload query variables) = PostReturns r
    /\ is_success r = true
    /\ body r = Ok (JDict fields)
    /\ no_errors fields = true
    /\ d = match assoc "data" fields with Some x => x | None => JDict [] end.
Proof.
  rewrite simple_executor_is_http_executor. intro H0.
  assert (H : Http.make_graphql_request rt post query variables = Ok d)
    by (destruct H0; assumption).
  clear H0. unfold Http.make_graphql_request in H.
  fold (request_payload query variables) in H.
  destruct (post (request_payload query variables)) as [e|r] eqn:Hpost;
    [discriminate|].
  unfold raise_for_status in H.
  destruct (is_success r) eqn:Hs; [|discriminate].
  cbn [bind] in H.
  destruct (body r) as [response_data|] eqn:Hb; [|discriminate].
  cbn [bind] in H.
  destruct response_data as [| | | |s|items|fields]; try discriminate.
  - cbn [py_contains bind] in H.
    destruct (is_substring "errors" s); cbn in H; discriminate.
  - cbn [py_contains bind] in H.
    destruct (existsb _ items); cbn in H; discriminate.
  - exists r, fields. do 3 (split; [assumption || reflexivity|]).
    unfold no_errors. cbn [py_contains bind py_getitem] in H.
    destruct (assoc "errors" fields) as [errors|] eqn:He.
    + cbn [bind] in H. destruct (truthy errors).
      * exfalso.
        repeat match type of H with
               | context [bind ?c _] =>
                   destruct c; cbn [bind] in H; try discriminate
               end.
      * cbn [bind py_get] in H. split; [reflexivity|congruence].
    + cbn [bind py_get] in H. split; [reflexivity|congruence].
Qed.

(** An answer that is returned: status 200, no [errors], a [data]. *)
Lemma executor_returns_only_clean_answers_witness :
  exists r fields,
    always (ok_response (JDict [("data", JInt 7)]))
      (request_payload "query { x }" JNull) = PostReturns r
    /\ is_success r = true
    /\ body r = Ok (JDict fields)
    /\ no_errors fields = true
    /\ JInt 7 = match assoc "data" fields with Some x => x | None => JDict [] end.
Proof.
  apply (executor_returns_only_clean_answers sample_runtime
           (always (ok_response (JDict [("data", JInt 7)])))
           "query { x }" JNull (JInt 7)).
  left. reflexivity.
Defined.

Lemma collect_entry_values (rt : runtime) (errs : list json) :
  forall values,
    map (entry_value rt) errs = map Some values ->
    mapM (fun err => py_get err "message" (JStr (py_str rt err))) errs
    = Ok values.
Proof.
  induction errs as [|err errs IH]; intros [|v values] H; simpl in H;
    try discriminate; [reflexivity|].
  injection H as Hv Hrest.
  cbn [mapM]. rewrite (IH _ Hrest).
  destruct err as [| | | | | |fields]; simpl in Hv; try discriminate.
  injection Hv as <-. reflexivity.
Qed.

Lemma entry_text_value (rt : runtime) (errs : list json) :
  forall texts,
    map (entry_text rt) errs = map Some texts ->
    map (entry_value rt) errs = map Some (map JStr texts).
Proof.
  induction errs as [|err errs IH]; intros [|t texts] H; simpl in H;
    try discriminate; [reflexivity|].
  injection H as Ht Hrest. simpl. rewrite (IH _ Hrest). f_equal.
  destruct err as [| | | | | |fields]; simpl in *; try discriminate.
  destruct (assoc "message" fields) as [[| | | |s| |]|];
    try discriminate; injection Ht as <-; reflexivity.
Qed.

Lemma executor_reads_errors (rt : runtime) (post : json -> reply)
      (query : string) (variables : json) (r : response)
      (fields : list (string * json)) (errs values : list json) :
  post (request_payload query variables) = PostReturns r ->
  is_success r = true ->
  body r = Ok (JDict fields) ->
  assoc "errors" fields = Some (JList errs) ->
  errs <> [] ->
  map (entry_value rt) errs = map Some values ->
  Http.make_graphql_request rt post query variables
  = bind (str_join "; " values)
         (fun error_details =>
            Raise (Exception ("GraphQL API error: " ++ error_details))).
Proof.
  intros Hpost Hs Hb He Hne Hv.
  unfold Http.make_graphql_request. fold (request_payload query variables).
  rewrite Hpost. unfold raise_for_status. rewrite Hs. simpl.
  rewrite Hb. simpl. rewrite He. simpl.
  destruct errs as [|e0 errs']; [congruence|].
  cbn [truthy bind].
  rewrite (collect_entry_values rt _ _ Hv). reflexivity.
Qed.

(** X2.  With a success status and a non-empty [errors] array of objects,
    each entry adds its [message] when that is a string and [str] of the
    whole entry when it has no [message]; the executor raises
    "GraphQL API error: " followed by these texts joined by "; ". *)
Theorem graphql_error_joins_entry_texts
      (rt : runtime) (post : json -> reply)
      (query : string) (variables : json) (r : response)
      (fields : list (string * json)) (errs : list json)
      (texts : list string) :
  post (request_payload query variables) = PostReturns r ->
  is_success r = true ->
  body r = Ok (JDict fields) ->
  assoc "errors" fields = Some (JList errs) ->
  errs <> [] ->
  map (entry_text rt) errs = map Some texts ->
  Http.make_graphql_request rt post query variables
  = Raise (Exception ("GraphQL API error: " ++ concat "; " texts))
  /\ Simple.make_graphql_request rt post query variables
     = Raise (Exception ("GraphQL API error: " ++ concat "; " texts)).
Proof.
  intros Hpost Hs Hb He Hne Ht.
  rewrite simple_executor_is_http_executor.
  assert (Http.make_graphql_request rt post query variables
          = Raise (Exception ("GraphQL API error: " ++ concat "; " texts))).
  { rewrite (executor_reads_errors rt post query variables r fields errs
               (map JStr texts)); auto using entry_text_value.
    unfold str_join. rewrite join_from_strings. reflexivity. }
  split; assumption.
Qed.

(** An entry with a message next to one that only has a code. *)
Lemma graphql_error_joins_entry_texts_witness :
  let errs := [JDict [("message", JStr "boom")]; JDict [("code", JInt 7)]] in
  Http.make_graphql_request sample_runtime
    (always (ok_response (JDict [("errors", JList errs)]))) "query { x }" JNull
  = Raise (Exception "GraphQL API error: boom; ?")
  /\ Simple.make_graphql_request sample_runtime
       (always (ok_response (JDict [("errors", JList errs)]))) "query { x }" JNull
     = Raise (Exception "GraphQL API error: boom; ?").
Proof.
  intro errs.
  apply (graphql_error_joins_entry_texts sample_runtime
           (always (ok_response (JDict [("errors", JList errs)])))
           "query { x }" JNull
           (ok_response (JDict [("errors", JList errs)]))
           [("errors", JList errs)] errs ["boom"; "?"]);
    try reflexivity.
  discriminate.
Defined.

Lemma join_from_non_text (sep : string) (texts : list string) (v : json)
      (rest : list json) :
  is_text v = false ->
  forall i,
    join_from i sep (map JStr texts ++ v :: rest)
    = Raise (TypeError ("sequence item "
                        ++ str_int (i + Z.of_nat (List.length texts))
                        ++ ": expected str instance, "
                        ++ type_name v ++ " found")).
Proof.
  intro Hv. induction texts as [|t texts IH]; intro i.
  - simpl. rewrite Z.add_0_r.
    destruct v; try reflexivity; discriminate.
  - change (map JStr (t :: texts) ++ v :: rest)%list
      with (JStr t :: (map JStr texts ++ v :: rest))%list.
    cbn [join_from]. rewrite IH.
    replace (i + 1 + Z.of_nat (List.length texts))
      with (i + Z.of_nat (List.length (t :: texts)))
      by (cbn [List.length]; lia).
    destruct (map JStr texts ++ v :: rest)%list eqn:Happ; [|reflexivity].
    destruct texts; discriminate.
Qed.

(** X3.  A [message] that is not a string (null, a number, an object)
    makes the join of the messages fail: the executor raises [TypeError],
    naming the position and the type of the first such message, and no
    "GraphQL API error" at all. *)
Theorem graphql_error_needs_text_messages
      (rt : runtime) (post : json -> reply)
      (query : string) (variables : json) (r : response)
      (fields : list (string * json)) (errs rest : list json)
      (texts : list string) (v : json) :
  post (request_payload query variables) = PostReturns r ->
  is_success r = true ->
  body r = Ok (JDict fields) ->
  assoc "errors" fields = Some (JList errs) ->
  map (entry_value rt) errs = map Some (map JStr texts ++ v :: rest) ->
  is_text v = false ->
  let e := TypeError ("sequence item " ++ str_int (Z.of_nat (List.length texts))
                      ++ ": expected str instance, "
                      ++ type_name v ++ " found") in
  Http.make_graphql_request rt post query variables = Raise e
  /\ Simple.make_graphql_request rt post query variables = Raise e.
Proof.
  intros Hpost Hs Hb He Hv Htext e.
  rewrite simple_executor_is_http_executor.
  assert (Hne : errs <> []).
  { intros ->. simpl in Hv. destruct texts; discriminate. }
  assert (Http.make_graphql_request rt post query variables = Raise e).
  { rewrite (executor_reads_errors rt post query variables r fields errs _
               Hpost Hs Hb He Hne Hv).
    unfold str_join. rewrite (join_from_non_text _ _ _ _ Htext).
    reflexivity. }
  split; assumption.
Qed.

(** A second entry whose message is null. *)
Lemma graphql_error_needs_text_messages_witness :
  let errs := [JDict [("message", JStr "boom")]; JDict [("message", JNull)]] in
  Http.make_graphql_request sample_runtime
    (always (ok_response (JDict [("errors", JList errs)]))) "query { x }" JNull
  = Raise (TypeError "sequence item 1: expected str instance, NoneType found")
  /\ Simple.make_graphql_request sample_runtime
       (always (ok_response (JDict [("errors", JList errs)]))) "query { x }" JNull
     = Raise (TypeError "sequence item 1: expected str instance, NoneType found").
Proof.
  intro errs.
  apply (graphql_error_needs_text_messages sample_runtime
           (always (ok_response (JDict [("errors", JList errs)])))
           "query { x }" JNull
           (ok_response (JDict [("errors", JList errs)]))
           [("errors", JList errs)] errs [] ["boom"] JNull);
    reflexivity.
Defined.

(** * What the operations let out *)

Lemma catch_wraps {A : Type} (body : result A) (wrap : exn -> exn) (e : exn) :
  catch body (fun cause => Raise (wrap cause)) = Raise e ->
  exists cause, body = Raise cause /\ e = wrap cause.
Proof.
  destruct body as [a|cause]; simpl; [discriminate|].
  intros [= <-]. eauto.
Qed.

(** X4.  Whatever goes wrong inside a route of the HTTP front end (the
    executor, a missing field, a value of the wrong shape), the only
    exception that leaves [get_system_info], [get_array_status] or
    [list_docker_containers] is an [HTTPException] with status 500 whose
    detail is the prefix of the route followed by the text of the cause;
    no 404 and no other exception class ever leaves them. *)
Theorem http_routes_raise_only_500
      (rt : runtime) (post : json -> reply) (e : exn) :
  (Http.get_system_info rt post = Raise e ->
   exists cause,
     e = HTTPException 500
           ("Failed to retrieve system information: " ++ str_exn cause))
  /\ (Http.get_array_status rt post = Raise e ->
      exists cause,
        e = HTTPException 500
              ("Failed to retrieve array status: " ++ str_exn cause))
  /\ (Http.list_docker_containers rt post = Raise e ->
      exists cause,
        e = HTTPException 500
              ("Failed to list Docker containers: " ++ str_exn cause)).
Proof.
  repeat split; intro H;
    apply (catch_wraps _ (fun cause => HTTPException 500 (_ ++ str_exn cause)))
      in H as [cause [_ ->]]; eauto.
Qed.

(** A refused connection behind the array route. *)
Lemma http_routes_raise_only_500_witness :
  Http.get_array_status sample_runtime
    (fun _ => PostRaises (RequestError "refused"))
  = Raise (HTTPException 500 "Failed to retrieve array status: refused")
  /\ exists cause,
       HTTPException 500 "Failed to retrieve array status: refused"
       = HTTPException 500
           ("Failed to retrieve array status: " ++ str_exn cause).
Proof.
  split; [reflexivity|].
  apply (proj1 (proj2 (http_routes_raise_only_500 sample_runtime
                         (fun _ => PostRaises (RequestError "refused"))
                         (HTTPException 500
                            "Failed to retrieve array status: refused")))).
  reflexivity.
Defined.

(** X5.  In the tool front end the three operations let out nothing but a
    plain [Exception] whose message is the prefix of the operation
    followed by the text of the cause. *)
Theorem simple_operations_raise_only_wrapped
      (rt : runtime) (post : json -> reply) (e : exn) :
  (Simple.get_system_info rt post = Raise e ->
   exists cause,
     e = Exception ("Failed to retrieve system information: " ++ str_exn cause))
  /\ (Simple.get_array_status rt post = Raise e ->
      exists cause,
        e = Exception ("Failed to retrieve array status: " ++ str_exn cause))
  /\ (Simple.list_docker_containers rt post = Raise e ->
      exists cause,
        e = Exception ("Failed to list Docker containers: " ++ str_exn cause)).
Proof.
  repeat split; intro H;
    apply (catch_wraps _ (fun cause => Exception (_ ++ str_exn cause)))
      in H as [cause [_ ->]]; eauto.
Qed.

(** An answer with status 503 behind the docker listing. *)
Lemma simple_operations_raise_only_wrapped_witness :
  Simple.list_docker_containers sample_runtime
    (always {| status_code := 503; status_message := "Server error '503'";
               body := Ok JNull |})
  = Raise (Exception "Failed to list Docker containers: Server error '503'")
  /\ exists cause,
       Exception "Failed to list Docker containers: Server error '503'"
       = Exception ("Failed to list Docker containers: " ++ str_exn cause).
Proof.
  split; [reflexivity|].
  apply (proj2 (proj2 (simple_operations_raise_only_wrapped sample_runtime
                         (always {| status_code := 503;
                                    status_message := "Server error '503'";
                                    body := Ok JNull |})
                         (Exception
                            "Failed to list Docker containers: Server error '503'")))).
  reflexivity.
Defined.





(** * Docker containers, further *)

(** X8.  On the same [data], whenever the HTTP route answers, the tool
    front end answers too, with exactly the value the HTTP answer holds
    under [containers]. *)
Theorem docker_front_ends_list_the_same
      (rt : runtime) (post : json -> reply) (data answer : json) :
  Http.make_graphql_request rt post Http.query_docker_containers JNull
  = Ok data ->
  Simple.make_graphql_request rt post Simple.query_docker_containers JNull
  = Ok data ->
  Http.list_docker_containers rt post = Ok answer ->
  exists containers,
    answer_field answer "containers" = Some containers
    /\ Simple.list_docker_containers rt post = Ok containers.
Proof.
  intros Hhttp Hsimple.
  unfold Http.list_docker_containers, Simple.list_docker_containers.
  rewrite Hhttp, Hsimple. cbn [bind].
  destruct (py_get data "docker" JNull) as [docker|]; cbn [bind catch];
    [|discriminate].
  destruct (truthy docker).
  - destruct (py_getitem data "docker") as [docker'|]; cbn [bind catch];
      [|discriminate].
    destruct (py_get docker' "containers" (JList [])) as [containers|];
      cbn [bind catch]; [|discriminate].
    intro H.
    repeat match type of H with
           | context [bind ?c _] =>
               destruct c; cbn [bind catch] in H; try discriminate
           end.
    injection H as <-. exists containers. split; reflexivity.
  - cbn [catch]. intros [= <-]. exists (JList []). split; reflexivity.
Qed.

Lemma docker_front_ends_list_the_same_witness :
  let containers := JList [container_in_state "running"] in
  let post := always (ok_response (JDict [
                ("data", JDict [("docker", JDict [("containers", containers)])])])) in
  exists listed,
    answer_field (JDict [("summary", docker_summary 1 1 0);
                         ("containers", containers)]) "containers"
    = Some listed
    /\ Simple.list_docker_containers sample_runtime post = Ok listed.
Proof.
  intros containers post.
  apply (docker_front_ends_list_the_same sample_runtime post
           (JDict [("docker", JDict [("containers", containers)])]));
    reflexivity.
Defined.

Lemma filter_by_state_non_object (wanted : string) (good : list json)
      (bad : json) (rest : list json) :
  forallb is_object good = true ->
  is_object bad = false ->
  filterM (fun c => state <- py_get c "state" JNull ;;
                    Ok (py_eq_str state wanted)) (good ++ bad :: rest)
  = Raise (AttributeError (type_name bad) "get").
Proof.
  intros Hgood Hbad. induction good as [|c good IH].
  - simpl. destruct bad; try reflexivity; discriminate.
  - simpl in Hgood. apply andb_true_iff in Hgood as [Hc Hgood].
    change ((c :: good) ++ bad :: rest)%list
      with (c :: (good ++ bad :: rest))%list.
    cbn [filterM]. rewrite (IH Hgood).
    destruct c; try discriminate. reflexivity.
Qed.

(** X9.  One entry of [docker.containers] that is not an object (a null,
    a string) makes the whole HTTP listing fail with a 500 that names the
    type of the first such entry, while the tool front end, which does not
    look into the list, returns it as it is. *)
Theorem docker_listing_rejects_non_objects
      (rt : runtime) (post : json -> reply)
      (fields docker : list (string * json))
      (good : list json) (bad : json) (rest : list json) :
  Http.make_graphql_request rt post Http.query_docker_containers JNull
  = Ok (JDict fields) ->
  Simple.make_graphql_request rt post Simple.query_docker_containers JNull
  = Ok (JDict fields) ->
  assoc "docker" fields = Some (JDict docker) ->
  assoc "containers" docker = Some (JList (good ++ bad :: rest)) ->
  forallb is_object good = true ->
  is_object bad = false ->
  Http.list_docker_containers rt post
  = Raise (HTTPException 500
             ("Failed to list Docker containers: '" ++ type_name bad
              ++ "' object has no attribute 'get'"))
  /\ Simple.list_docker_containers rt post = Ok (JList (good ++ bad :: rest)).
Proof.
  intros Hhttp Hsimple Hdocker Hcont Hgood Hbad.
  unfold Http.list_docker_containers, Simple.list_docker_containers.
  rewrite Hhttp, Hsimple. cbn [bind py_get]. rewrite Hdocker.
  destruct docker as [|d0 docker']; [discriminate|].
  cbn [truthy py_getitem]. rewrite Hdocker. cbn [bind py_get].
  rewrite Hcont. cbn [bind py_iter]. unfold Http.count_state.
  rewrite (filter_by_state_non_object _ _ _ _ Hgood Hbad).
  split; reflexivity.
Qed.

Lemma docker_listing_rejects_non_objects_witness :
  let listed := [container_in_state "running"; JNull] in
  let post := always (ok_response (JDict [
                ("data", JDict [("docker", JDict [("containers", JList listed)])])])) in
  Http.list_docker_containers sample_runtime post
  = Raise (HTTPException 500
             "Failed to list Docker containers: 'NoneType' object has no attribute 'get'")
  /\ Simple.list_docker_containers sample_runtime post = Ok (JList listed).
Proof.
  intros listed post.
  apply (docker_listing_rejects_non_objects sample_runtime post
           [("docker", JDict [("containers", JList listed)])]
           [("containers", JList listed)]
           [container_in_state "running"] JNull []);
    reflexivity.
Defined.

(** * Array status, further *)

Section ArrayFailures.

Variable rt : runtime.
Variable post : json -> reply.
Variable fields : list (string * json).

Hypothesis Hexec :
  Http.make_graphql_request rt post Http.query_array_status JNull
  = Ok (JDict fields).

Lemma http_missing_array :
  missing fields "array" = true ->
  Http.get_array_status rt post
  = Raise (HTTPException 500
             "Failed to retrieve array status: 404: No array information returned from Unraid API").
Proof.
  intro Hmiss. unfold Http.get_array_status. rewrite Hexec.
  unfold missing in Hmiss. cbn [bind py_get].
  destruct (assoc "array" fields) as [array|].
  - rewrite Hmiss. reflexivity.
  - reflexivity.
Qed.

Lemma simple_missing_array :
  missing fields "array" = true ->
  Simple.get_array_status rt post
  = Raise (Exception
             "Failed to retrieve array status: No array information returned from Unraid API").
Proof.
  intro Hmiss. unfold Simple.get_array_status.
  rewrite array_queries_agree, simple_executor_is_http_executor, Hexec.
  unfold missing in Hmiss. cbn [bind py_get].
  destruct (assoc "array" fields) as [array|].
  - rewrite Hmiss. reflexivity.
  - reflexivity.
Qed.

Variable array : list (string * json).
Hypothesis Harray : assoc "array" fields = Some (JDict array).
Hypothesis Hfull : array <> [].

Lemma http_unsized_disks (e : exn) :
  bind (py_len (listed array "disks"))
       (fun _ => py_len (listed array "parities")) = Raise e ->
  Http.get_array_status rt post
  = Raise (HTTPException 500 ("Failed to retrieve array status: " ++ str_exn e)).
Proof.
  intro Hlen. unfold Http.get_array_status. rewrite Hexec.
  cbn [bind]. rewrite (py_get_some _ _ _ _ Harray). cbn [bind].
  rewrite (truthy_object _ Hfull). cbn [negb].
  rewrite !py_get_field, !py_get_listed. cbn [bind].
  destruct (py_len (listed array "disks")); cbn [bind] in *.
  - rewrite Hlen. reflexivity.
  - injection Hlen as ->. reflexivity.
Qed.

Lemma simple_unsized_disks (e : exn) :
  bind (py_len (listed array "disks"))
       (fun _ => py_len (listed array "parities")) = Raise e ->
  Simple.get_array_status rt post
  = Raise (Exception ("Failed to retrieve array status: " ++ str_exn e)).
Proof.
  intro Hlen. unfold Simple.get_array_status.
  rewrite array_queries_agree, simple_executor_is_http_executor, Hexec.
  cbn [bind]. rewrite (py_get_some _ _ _ _ Harray). cbn [bind].
  rewrite (truthy_object _ Hfull). cbn [negb].
  rewrite !py_get_field, !py_get_listed. cbn [bind].
  destruct (py_len (listed array "disks")); cbn [bind] in *.
  - rewrite Hlen. reflexivity.
  - injection Hlen as ->. reflexivity.
Qed.

Lemma http_capacity_failure (data parity : Z)
      (capacity kilobytes : list (string * json)) (e : exn) :
  py_len (listed array "disks") = Ok data ->
  py_len (listed array "parities") = Ok parity ->
  sub_object array "capacity" = Some capacity ->
  sub_object capacity "kilobytes" = Some kilobytes ->
  capacity_entries rt kilobytes = Raise e ->
  Http.get_array_status rt post
  = Raise (HTTPException 500 ("Failed to retrieve array status: " ++ str_exn e)).
Proof.
  intros Hdisks Hparities Hcap Hkb Hentries.
  unfold Http.get_array_status. rewrite Hexec.
  cbn [bind]. rewrite (py_get_some _ _ _ _ Harray). cbn [bind].
  rewrite (truthy_object _ Hfull). cbn [negb].
  rewrite !py_get_field, !py_get_listed. cbn [bind].
  rewrite Hdisks. cbn [bind]. rewrite Hparities. cbn [bind].
  destruct (sub_object_cases _ _ _ Hcap) as [[-> Hc]|[Hcne [Hc Hgc]]].
  - cbn in Hkb. injection Hkb as <-. discriminate.
  - rewrite Hc, Hgc. cbn [bind]. rewrite !py_get_field. cbn [bind].
    destruct (sub_object_cases _ _ _ Hkb) as [[-> Hk]|[Hkne [Hk Hgk]]];
      [discriminate|].
    rewrite Hk. cbn [bind]. rewrite Hgk. cbn [bind].
    rewrite !py_get_field.
    unfold capacity_entries in Hentries.
    destruct kilobytes as [|k0 kilobytes']; [congruence|]. cbn [bind].
    destruct (Http.format_kb rt (field_or_null (k0 :: kilobytes') "total"));
      cbn [bind] in *; [|injection Hentries as ->; reflexivity].
    destruct (Http.format_kb rt (field_or_null (k0 :: kilobytes') "used"));
      cbn [bind] in *; [|injection Hentries as ->; reflexivity].
    destruct (Http.format_kb rt (field_or_null (k0 :: kilobytes') "free"));
      cbn [bind] in *; [discriminate|injection Hentries as ->; reflexivity].
Qed.

End ArrayFailures.

(** X10.  An answer whose [array] is absent or empty fails in both front
    ends: the tool front end with "No array information returned from
    Unraid API" behind the prefix of the operation; the HTTP route raises
    its 404 inside the [try] block, so what leaves it is a 500 whose
    detail quotes the 404. *)
Theorem missing_array_fails_wrapped
      (rt : runtime) (post : json -> reply) (fields : list (string * json)) :
  Http.make_graphql_request rt post Http.query_array_status JNull
  = Ok (JDict fields) ->
  missing fields "array" = true ->
  Http.get_array_status rt post
  = Raise (HTTPException 500
             "Failed to retrieve array status: 404: No array information returned from Unraid API")
  /\ Simple.get_array_status rt post
     = Raise (Exception
                "Failed to retrieve array status: No array information returned from Unraid API").
Proof.
  intros Hexec Hmiss. split.
  - eapply http_missing_array; eassumption.
  - eapply simple_missing_array; eassumption.
Qed.

(** An [array] that is null. *)
Lemma missing_array_fails_wrapped_witness :
  let post := always (ok_response (JDict [("data", JDict [("array", JNull)])])) in
  Http.get_array_status sample_runtime post
  = Raise (HTTPException 500
             "Failed to retrieve array status: 404: No array information returned from Unraid API")
  /\ Simple.get_array_status sample_runtime post
     = Raise (Exception
                "Failed to retrieve array status: No array information returned from Unraid API").
Proof.
  intro post.
  apply (missing_array_fails_wrapped sample_runtime post [("array", JNull)]);
    reflexivity.
Defined.

(** X11.  The default [[]] of [disks] and [parities] stands in only for an
    absent key.  When the key holds a value without a length (a null, a
    number), [len] raises and the whole array status fails in both front
    ends with the text of that error. *)
Theorem unsized_disks_fail_array_status
      (rt : runtime) (post : json -> reply)
      (fields array : list (string * json)) (e : exn) :
  Http.make_graphql_request rt post Http.query_array_status JNull
  = Ok (JDict fields) ->
  assoc "array" fields = Some (JDict array) ->
  array <> [] ->
  bind (py_len (listed array "disks"))
       (fun _ => py_len (listed array "parities")) = Raise e ->
  Http.get_array_status rt post
  = Raise (HTTPException 500 ("Failed to retrieve array status: " ++ str_exn e))
  /\ Simple.get_array_status rt post
     = Raise (Exception ("Failed to retrieve array status: " ++ str_exn e)).
Proof.
  intros Hexec Harray Hfull Hlen. split.
  - eapply http_unsized_disks; eassumption.
  - eapply simple_unsized_disks; eassumption.
Qed.

(** [disks] present and null. *)
Lemma unsized_disks_fail_array_status_witness :
  let array := [("state", JStr "STARTED"); ("disks", JNull)] in
  let post := always (ok_response (JDict [
                ("data", JDict [("array", JDict array)])])) in
  Http.get_array_status sample_runtime post
  = Raise (HTTPException 500
             "Failed to retrieve array status: object of type 'NoneType' has no len()")
  /\ Simple.get_array_status sample_runtime post
     = Raise (Exception
                "Failed to retrieve array status: object of type 'NoneType' has no len()").
Proof.
  intros array post.
  apply (unsized_disks_fail_array_status sample_runtime post
           [("array", JDict array)] array
           (TypeError "object of type 'NoneType' has no len()"));
    try reflexivity.
  discriminate.
Defined.

(** X12.  A kilobyte figure the formatter cannot take (a list, a figure
    too large for a double, a refused string) fails the whole HTTP array
    status with a 500; the tool front end, which formats no capacity,
    still returns its summary for the same answer. *)
Theorem bad_capacity_fails_only_http
      (rt : runtime) (post : json -> reply)
      (fields array capacity kilobytes : list (string * json))
      (data parity : Z) (e : exn) :
  Http.make_graphql_request rt post Http.query_array_status JNull
  = Ok (JDict fields) ->
  assoc "array" fields = Some (JDict array) ->
  array <> [] ->
  py_len (listed array "disks") = Ok data ->
  py_len (listed array "parities") = Ok parity ->
  sub_object array "capacity" = Some capacity ->
  sub_object capacity "kilobytes" = Some kilobytes ->
  capacity_entries rt kilobytes = Raise e ->
  Http.get_array_status rt post
  = Raise (HTTPException 500 ("Failed to retrieve array status: " ++ str_exn e))
  /\ Simple.get_array_status rt post
     = Ok (JDict [("summary", JDict (array_summary array data parity));
                  ("details", JDict array)]).
Proof.
  intros Hexec Harray Hfull Hdisks Hparities Hcap Hkb Hentries. split.
  - eapply http_capacity_failure; eassumption.
  - eapply simple_array_summary; eassumption.
Qed.

(** A [used] figure that is a list. *)
Lemma bad_capacity_fails_only_http_witness :
  let kilobytes := [("total", JInt 2048); ("used", JList []);
                    ("free", JInt 1024)] in
  let array := [("state", JStr "STARTED");
                ("capacity", JDict [("kilobytes", JDict kilobytes)])] in
  let post := always (ok_response (JDict [
                ("data", JDict [("array", JDict array)])])) in
  Http.get_array_status sample_runtime post
  = Raise (HTTPException 500
             "Failed to retrieve array status: int() argument must be a string, a bytes-like object or a real number, not 'list'")
  /\ Simple.get_array_status sample_runtime post
     = Ok (JDict [("summary", JDict [("state", JStr "STARTED");
                                     ("num_data_disks", JInt 0);
                                     ("num_parity_disks", JInt 0)]);
                  ("details", JDict array)]).
Proof.
  intros kilobytes array post.
  apply (bad_capacity_fails_only_http sample_runtime post
           [("array", JDict array)] array
           [("kilobytes", JDict kilobytes)] kilobytes 0 0
           (TypeError
              "int() argument must be a string, a bytes-like object or a real number, not 'list'"));
    try reflexivity.
  discriminate.
Defined.

(** * Health check, further *)

Lemma health_queries_agree :
  Simple.query_health_check = Http.query_health_check.
Proof. reflexivity. Qed.

(** X13.  When the executor returns an object whose [info] is present but
    not an object (null, say), the two front ends part: the HTTP route
    fails on [.get], catches that and answers unhealthy with status 503,
    while the tool front end answers healthy and passes the value on under
    [unraid_system]. *)
Theorem health_check_on_non_object_info
      (rt : runtime) (post : json -> reply)
      (fields : list (string * json)) (v : json) :
  Http.make_graphql_request rt post Http.query_health_check JNull
  = Ok (JDict fields) ->
  assoc "info" fields = Some v ->
  is_object v = false ->
  Http.health_check rt post
  = Ok (Http.JSONResponse 503 (JDict [
          ("status", JStr "unhealthy");
          ("timestamp", JStr (utcnow rt));
          ("error", JStr ("'" ++ type_name v
                          ++ "' object has no attribute 'get'"))]))
  /\ Simple.health_check rt post
     = Ok (JDict [("status", JStr "healthy");
                  ("server", JStr "Unraid MCP Server");
                  ("api_connection", JStr "ok");
                  ("unraid_system", v)]).
Proof.
  intros Hexec Hinfo Hv. split.
  - unfold Http.health_check. rewrite Hexec. cbn [bind py_get].
    rewrite Hinfo. destruct v; try discriminate; reflexivity.
  - unfold Simple.health_check.
    rewrite health_queries_agree, simple_executor_is_http_executor, Hexec.
    cbn [bind py_get]. rewrite Hinfo. reflexivity.
Qed.

Lemma health_check_on_non_object_info_witness :
  let post := always (ok_response (JDict [("data", JDict [("info", JNull)])])) in
  Http.health_check sample_runtime post
  = Ok (Http.JSONResponse 503 (JDict [
          ("status", JStr "unhealthy");
          ("timestamp", JStr "2024-05-01T12:00:00");
          ("error", JStr "'NoneType' object has no attribute 'get'")]))
  /\ Simple.health_check sample_runtime post
     = Ok (JDict [("status", JStr "healthy");
                  ("server", JStr "Unraid MCP Server");
                  ("api_connection", JStr "ok");
                  ("unraid_system", JNull)]).
Proof.
  intro post.
  apply (health_check_on_non_object_info sample_runtime post
           [("info", JNull)] JNull); reflexivity.
Defined.

(** * The capacity formatter, further *)

(** X14.  For a figure from 1024 up to [2^53] the formatter prints a unit
    chosen by the thresholds and a number of hundredths [r] that is the
    nearest one to the quotient: [r / 100] differs from [k / d] by at most
    half a hundredth.  The number printed is never below 1.00, and before
    the TB range never above 1024.00. *)
Theorem format_kb_is_accurate (rt : runtime) (k : Z) :
  1024 <= k < 2 ^ 53 ->
  exists r d unit,
    Http.format_kb rt (JInt k) = Ok (hundredths r ++ unit)
    /\ In (d, unit) [(1024, " MB"); (1048576, " GB"); (1073741824, " TB")]
    /\ d <= k
    /\ (unit <> " TB" -> k < 1024 * d)
    /\ 2 * Z.abs (100 * k - r * d) <= d
    /\ 100 <= r
    /\ (unit <> " TB" -> r <= 102400).
Proof.
  intros [Hlow Hhigh].
  rewrite (format_kb_below_2_53 rt k Hhigh). unfold spec_format_kb, two_decimals.
  destruct (Z.leb_spec 1073741824 k);
    [|destruct (Z.leb_spec 1048576 k); [|destruct (Z.leb_spec 1024 k); [|lia]]].
  - exists (round_half_even (100 * k) 1073741824), 1073741824, " TB".
    pose proof (round_half_even_nearest (100 * k) 1073741824 ltac:(lia)) as [Hn _].
    split; [reflexivity|]. split; [simpl; auto|]. split; [assumption|].
    split; [intro Hu; congruence|]. split; [lia|].
    split; [lia|]. intro Hu; congruence.
  - exists (round_half_even (100 * k) 1048576), 1048576, " GB".
    pose proof (round_half_even_nearest (100 * k) 1048576 ltac:(lia)) as [Hn _].
    split; [reflexivity|]. split; [simpl; auto|]. split; [assumption|].
    split; [intros _; lia|]. split; [lia|].
    split; [lia|]. intros _; lia.
  - exists (round_half_even (100 * k) 1024), 1024, " MB".
    pose proof (round_half_even_nearest (100 * k) 1024 ltac:(lia)) as [Hn _].
    split; [reflexivity|]. split; [simpl; auto|]. split; [assumption|].
    split; [intros _; lia|]. split; [lia|].
    split; [lia|]. intros _; lia.
Qed.

(** One kilobyte short of a gigabyte prints as 1024.00 MB. *)
Lemma format_kb_is_accurate_witness :
  Http.format_kb sample_runtime (JInt 1048575) = Ok "1024.00 MB"
  /\ exists r d unit,
       Http.format_kb sample_runtime (JInt 1048575) = Ok (hundredths r ++ unit)
       /\ In (d, unit) [(1024, " MB"); (1048576, " GB"); (1073741824, " TB")]
       /\ d <= 1048575
       /\ (unit <> " TB" -> 1048575 < 1024 * d)
       /\ 2 * Z.abs (100 * 1048575 - r * d) <= d
       /\ 100 <= r
       /\ (unit <> " TB" -> r <= 102400).
Proof.
  split; [reflexivity|].
  apply (format_kb_is_accurate sample_runtime 1048575).
  split; [discriminate|reflexivity].
Defined.

(** * One request, without variables *)

Lemma executor_asks_bare_query (rt : runtime) (post post' : json -> reply)
      (query : string) :
  post (bare_query query) = post' (bare_query query) ->
  Http.make_graphql_request rt post query JNull
  = Http.make_graphql_request rt post' query JNull.
Proof.
  intro H. unfold Http.make_graphql_request. cbn [truthy].
  change (JDict [("query", JStr query)]) with (bare_query query).
  rewrite H. reflexivity.
Qed.

(** X15.  Every operation of either front end, and so every tool call,
    reads the upstream through one request only: the object with the single
    key [query] holding its own query text, and no [variables].  Two
    upstreams that answer these requests alike cannot be told apart. *)
Theorem operations_ask_one_bare_query
      (rt : runtime) (post post' : json -> reply) :
  (forall query, post (bare_query query) = post' (bare_query query)) ->
  Http.get_system_info rt post = Http.get_system_info rt post'
  /\ Http.get_array_status rt post = Http.get_array_status rt post'
  /\ Http.list_docker_containers rt post = Http.list_docker_containers rt post'
  /\ Http.health_check rt post = Http.health_check rt post'
  /\ Simple.get_system_info rt post = Simple.get_system_info rt post'
  /\ Simple.get_array_status rt post = Simple.get_array_status rt post'
  /\ Simple.list_docker_containers rt post
     = Simple.list_docker_containers rt post'
  /\ Simple.health_check rt post = Simple.health_check rt post'
  /\ (forall name arguments,
         Simple.call_tool rt post name arguments
         = Simple.call_tool rt post' name arguments).
Proof.
  intro Hsame.
  assert (Hexec : forall query,
             Http.make_graphql_request rt post query JNull
             = Http.make_graphql_request rt post' query JNull)
    by (intro query; apply executor_asks_bare_query, Hsame).
  assert (H1 : Simple.get_system_info rt post = Simple.get_system_info rt post')
    by (unfold Simple.get_system_info;
        rewrite simple_executor_is_http_executor, Hexec; reflexivity).
  assert (H2 : Simple.get_array_status rt post = Simple.get_array_status rt post')
    by (unfold Simple.get_array_status;
        rewrite simple_executor_is_http_executor, Hexec; reflexivity).
  assert (H3 : Simple.list_docker_containers rt post
               = Simple.list_docker_containers rt post')
    by (unfold Simple.list_docker_containers;
        rewrite simple_executor_is_http_executor, Hexec; reflexivity).
  assert (H4 : Simple.health_check rt post = Simple.health_check rt post')
    by (unfold Simple.health_check;
        rewrite simple_executor_is_http_executor, Hexec; reflexivity).
  split; [unfold Http.get_system_info; rewrite Hexec; reflexivity|].
  split; [unfold Http.get_array_status; rewrite Hexec; reflexivity|].
  split; [unfold Http.list_docker_containers; rewrite Hexec; reflexivity|].
  split; [unfold Http.health_check; rewrite Hexec; reflexivity|].
  repeat (split; [assumption|]).
  intros name arguments. unfold Simple.call_tool.
  rewrite H1, H2, H3, H4. reflexivity.
Qed.

(** An upstream that refuses every request carrying variables is as good
    as one that answers them. *)
Lemma operations_ask_one_bare_query_witness :
  let answer := PostReturns (ok_response (JDict [
                  ("data", JDict [("docker", JDict [("containers", JList [])])])])) in
  let strict := fun payload =>
                  match payload with
                  | JDict [(_, JStr _)] => answer
                  | _ => PostRaises (RequestError "unexpected request")
                  end in
  Simple.list_docker_containers sample_runtime strict
  = Simple.list_docker_containers sample_runtime (fun _ => answer).
Proof.
  intros answer strict.
  apply (operations_ask_one_bare_query sample_runtime strict (fun _ => answer)).
  reflexivity.
Defined.

(** * System information, further *)

(** X16.  [cores] and [threads] have no default: for a cpu object that does
    not carry them (or carries null) the summary line reads
    "(None cores, None threads)", where a missing [manufacturer] or [brand]
    would be left blank. *)
Theorem cpu_line_without_counts
      (rt : runtime) (post : json -> reply)
      (fields info os cpu : list (string * json)) (maker brand : string) :
  Simple.make_graphql_request rt post Simple.query_system_info JNull
  = Ok (JDict fields) ->
  assoc "info" fields = Some (JDict info) ->
  sub_object info "os" = Some os ->
  assoc "cpu" info = Some (JDict cpu) ->
  assoc "manufacturer" cpu = Some (JStr maker) ->
  assoc "brand" cpu = Some (JStr brand) ->
  field_or_null cpu "cores" = JNull ->
  field_or_null cpu "threads" = JNull ->
  exists answer,
    Simple.get_system_info rt post = Ok answer
    /\ summary_field answer "cpu"
       = Some (JStr (maker ++ " " ++ brand ++ " (None cores, None threads)")).
Proof.
  intros Hexec Hinfo Hos Hcpu Hmaker Hbrand Hcores Hthreads.
  assert (Hne : info <> []) by (intros ->; discriminate).
  assert (Hcne : cpu <> []) by (intros ->; discriminate).
  assert (Hsub : sub_object info "cpu" = Some cpu)
    by (unfold sub_object; rewrite Hcpu; reflexivity).
  eexists. split.
  - eapply simple_system_summary; eassumption.
  - unfold summary_field, system_summary, cpu_entries, cpu_line, text_or_blank.
    rewrite Hmaker, Hbrand, Hcores, Hthreads.
    destruct cpu as [|c0 cpu']; [congruence|].
    destruct os; reflexivity.
Qed.

Lemma cpu_line_without_counts_witness :
  let cpu := [("manufacturer", JStr "AMD"); ("brand", JStr "Ryzen");
              ("cores", JNull)] in
  let post := always (ok_response (JDict [
                ("data", JDict [("info", JDict [("cpu", JDict cpu)])])])) in
  exists answer,
    Simple.get_system_info sample_runtime post = Ok answer
    /\ summary_field answer "cpu"
       = Some (JStr "AMD Ryzen (None cores, None threads)").
Proof.
  intros cpu post.
  apply (cpu_line_without_counts sample_runtime post
           [("info", JDict [("cpu", JDict cpu)])] [("cpu", JDict cpu)]
           [] cpu "AMD" "Ryzen"); reflexivity.
Defined.

(** * The front ends side by side *)

Ltac step_through :=
  repeat match goal with
         | |- context [if ?b then _ else _] =>
             destruct b; cbn [bind catch negb]; try (intro; discriminate)
         | |- context [bind (bind ?c _) _] =>
             destruct c; cbn [bind catch negb]; try (intro; discriminate)
         | |- context [bind ?c _] =>
             destruct c; cbn [bind catch negb]; try (intro; discriminate)
         end.

(** X17.  Whatever the upstream sends: whenever the HTTP array route
    answers, the tool front end answers the same request with the same
    [details], the same [state], [num_data_disks] and [num_parity_disks],
    and no [capacity]. *)
Theorem array_front_ends_agree_on_every_answer
      (rt : runtime) (post : json -> reply) (http : json) :
  Http.get_array_status rt post = Ok http ->
  exists tool,
    Simple.get_array_status rt post = Ok tool
    /\ answer_field tool "details" = answer_field http "details"
    /\ summary_field tool "state" = summary_field http "state"
    /\ summary_field tool "num_data_disks" = summary_field http "num_data_disks"
    /\ summary_field tool "num_parity_disks"
       = summary_field http "num_parity_disks"
    /\ summary_field tool "capacity" = None.
Proof.
  unfold Http.get_array_status, Simple.get_array_status.
  rewrite array_queries_agree, simple_executor_is_http_executor.
  step_through;
    intros [= <-]; eexists; (split; [reflexivity|]); repeat split.
Qed.

Lemma array_front_ends_agree_on_every_answer_witness :
  let array := JDict [("state", JStr "STOPPED"); ("disks", JStr "ab")] in
  let post := always (ok_response (JDict [("data", JDict [("array", array)])])) in
  exists tool,
    Simple.get_array_status sample_runtime post = Ok tool
    /\ answer_field tool "details" = Some array
    /\ summary_field tool "state" = Some (JStr "STOPPED")
    /\ summary_field tool "num_data_disks" = Some (JInt 2)
    /\ summary_field tool "num_parity_disks" = Some (JInt 0)
    /\ summary_field tool "capacity" = None.
Proof.
  intros array post.
  apply (array_front_ends_agree_on_every_answer sample_runtime post
           (JDict [("summary", JDict [("state", JStr "STOPPED");
                                      ("num_data_disks", JInt 2);
                                      ("num_parity_disks", JInt 0)]);
                   ("details", array)])).
  reflexivity.
Defined.

(** X18.  On the same [data], whenever the HTTP system-info route answers,
    the tool front end answers too, with the same [details] and the same
    [os], [hostname], [uptime] and [cpu] in its summary; [unraid_version]
    is an entry of the HTTP summary only. *)
Theorem system_front_ends_agree_on_every_answer
      (rt : runtime) (post : json -> reply) (data http : json) :
  Http.make_graphql_request rt post Http.query_system_info JNull = Ok data ->
  Simple.make_graphql_request rt post Simple.query_system_info JNull = Ok data ->
  Http.get_system_info rt post = Ok http ->
  exists tool,
    Simple.get_system_info rt post = Ok tool
    /\ answer_field tool "details" = answer_field http "details"
    /\ summary_field tool "os" = summary_field http "os"
    /\ summary_field tool "hostname" = summary_field http "hostname"
    /\ summary_field tool "uptime" = summary_field http "uptime"
    /\ summary_field tool "cpu" = summary_field http "cpu"
    /\ summary_field tool "unraid_version" = None.
Proof.
  intros Hhttp Hsimple.
  unfold Http.get_system_info, Simple.get_system_info.
  rewrite Hhttp, Hsimple. cbn [bind].
  step_through;
    intros [= <-]; eexists; (split; [reflexivity|]); repeat split.
Qed.

Lemma system_front_ends_agree_on_every_answer_witness :
  let info := JDict [("cpu", sample_cpu);
                     ("versions", JDict [("unraid", JStr "6.12.4")])] in
  let post := always (ok_response (JDict [("data", JDict [("info", info)])])) in
  Http.get_system_info sample_runtime post
  = Ok (JDict [("summary",
                JDict [("cpu", JStr "Intel i7 (8 cores, 16 threads)");
                       ("unraid_version", JStr "6.12.4")]);
               ("details", info)])
  /\ exists tool,
       Simple.get_system_info sample_runtime post = Ok tool
       /\ answer_field tool "details" = Some info
       /\ summary_field tool "os" = None
       /\ summary_field tool "hostname" = None
       /\ summary_field tool "uptime" = None
       /\ summary_field tool "cpu"
          = Some (JStr "Intel i7 (8 cores, 16 threads)")
       /\ summary_field tool "unraid_version" = None.
Proof.
  intros info post. split; [reflexivity|].
  apply (system_front_ends_agree_on_every_answer sample_runtime post
           (JDict [("info", info)])
           (JDict [("summary",
                    JDict [("cpu", JStr "Intel i7 (8 cores, 16 threads)");
                           ("unraid_version", JStr "6.12.4")]);
                   ("details", info)]));
    reflexivity.
Defined.

(** * Order of the checks in the executor *)

(** X19.  The status is checked before the body is read: an answer with a
    status outside 200..299 raises the HTTP-status error of that status
    whatever its body is, malformed included; and behind a success status a
    body that does not decode raises the decoding error as it is. *)
Theorem executor_checks_status_then_body
      (rt : runtime) (post : json -> reply)
      (query : string) (variables : json) (r : response) :
  post (request_payload query variables) = PostReturns r ->
  (is_success r = false ->
   Http.make_graphql_request rt post query variables
   = Raise (HTTPStatusError (status_code r) (status_message r))
   /\ Simple.make_graphql_request rt post query variables
      = Raise (HTTPStatusError (status_code r) (status_message r)))
  /\ (forall e,
         is_success r = true ->
         body r = Raise e ->
         Http.make_graphql_request rt post query variables = Raise e
         /\ Simple.make_graphql_request rt post query variables = Raise e).
Proof.
  intro Hpost. rewrite simple_executor_is_http_executor. split.
  - intro Hs. split; eapply executor_bad_status; eassumption.
  - intros e Hs Hb.
    assert (Http.make_graphql_request rt post query variables = Raise e).
    { unfold Http.make_graphql_request.
      fold (request_payload query variables).
      rewrite Hpost. unfold raise_for_status. rewrite Hs. cbn [bind].
      rewrite Hb. reflexivity. }
    split; assumption.
Qed.

(** A redirect with a body that is no JSON at all. *)
Lemma executor_checks_status_then_body_witness :
  let r := {| status_code := 302; status_message := "Redirect response '302 Found'";
              body := Raise (JSONDecodeError "Expecting value") |} in
  Http.make_graphql_request sample_runtime (always r) "query { x }" JNull
  = Raise (HTTPStatusError 302 "Redirect response '302 Found'")
  /\ Simple.make_graphql_request sample_runtime (always r) "query { x }" JNull
     = Raise (HTTPStatusError 302 "Redirect response '302 Found'").
Proof.
  intro r.
  apply (proj1 (executor_checks_status_then_body sample_runtime (always r)
                  "query { x }" JNull r eq_refl)).
  reflexivity.
Defined.

(** X20.  A [docker] object without a [containers] key is listed as
    empty: the HTTP route answers with the summary 0/0/0 and an empty
    list, the tool front end with an empty list. *)
Theorem docker_without_containers_is_empty
      (rt : runtime) (post : json -> reply)
      (fields docker : list (string * json)) :
  Http.make_graphql_request rt post Http.query_docker_containers JNull
  = Ok (JDict fields) ->
  Simple.make_graphql_request rt post Simple.query_docker_containers JNull
  = Ok (JDict fields) ->
  assoc "docker" fields = Some (JDict docker) ->
  assoc "containers" docker = None ->
  Http.list_docker_containers rt post
  = Ok (JDict [("summary", docker_summary 0 0 0); ("containers", JList [])])
  /\ Simple.list_docker_containers rt post = Ok (JList []).
Proof.
  intros Hhttp Hsimple Hdocker Hcont.
  unfold Http.list_docker_containers, Simple.list_docker_containers.
  rewrite Hhttp, Hsimple. cbn [bind py_get]. rewrite Hdocker.
  destruct docker as [|d0 docker'].
  - split; reflexivity.
  - cbn [truthy py_getitem]. rewrite Hdocker. cbn [bind py_get].
    rewrite Hcont. split; reflexivity.
Qed.

Lemma docker_without_containers_is_empty_witness :
  let post := always (ok_response (JDict [
                ("data", JDict [("docker", JDict [("id", JStr "docker")])])])) in
  Http.list_docker_containers sample_runtime post
  = Ok (JDict [("summary", docker_summary 0 0 0); ("containers", JList [])])
  /\ Simple.list_docker_containers sample_runtime post = Ok (JList []).
Proof.
  intro post.
  apply (docker_without_containers_is_empty sample_runtime post
           [("docker", JDict [("id", JStr "docker")])]
           [("id", JStr "docker")]); reflexivity.
Defined.
